(** * Olist: the per-order feature pipeline

    A shallow embedding of [olist/data.py] (class [Olist]) and
    [olist/order.py] (class [Order]).

    - A pandas cell is an [option]: [None] is the missing value ([NaN] for
      numbers and strings, [NaT] for timestamps).
    - A timestamp is the [Z] number of nanoseconds since the epoch (pandas'
      [datetime64[ns]]), as [pd.to_datetime] parses it; a difference of
      timestamps is a [Z] number of nanoseconds; a quotient of two time
      deltas, a price, a coordinate or a distance is an exact rational [Q]
      (pandas rounds it to a float64, which keeps the sign and the zero; the
      properties of these values are about their presence, their sign and
      whether they are zero, not about identities between sums or
      quotients, which rounding breaks).
    - A DataFrame is the list of its rows, each table with the columns the
      methods read as a record of cells.  The dictionary [get_data] builds is
      a [gmap] from keys to frames; the methods of [Order] take the six
      tables they index it by.
    - [get_data] runs in a state and exception monad over the file system.
      The methods of [Order] hold no [raise] and no [try]: on tables with
      the columns they read they return a frame, and are functions. *)

From Stdlib Require Import ZArith QArith Qabs.
From stdpp Require Import base option list strings gmap sorting.

Local Open Scope Z_scope.
Set Warnings "-clear-no-such-hyp".

(** ** Python values shared by both modules *)

(** The exceptions the code can raise ([os.listdir], [os.remove],
    [pd.read_csv], a dictionary lookup) and the four classes named by the
    error taxonomy of the specification. *)
Inductive exn :=
  | FileNotFoundError
  | KeyError
  | ReadError (msg : string)
  | MissingDataError
  | MissingColumnError
  | EmptyJoinResultError
  | MalformedDateError.

Inductive outcome (A : Type) :=
  | Returns (a : A)
  | Raises (e : exn).
Arguments Returns {A} a.
Arguments Raises {A} e.

(** [str.replace(old, new)] for a non-empty [old]: every occurrence of [old],
    scanning from the left and without overlap, becomes [new].  [skip] counts
    the characters of a match still to be passed over. *)
Fixpoint replace_from (old new : string) (skip : nat) (s : string) : string :=
  match s with
  | EmptyString => EmptyString
  | String c s' =>
      match skip with
      | S n => replace_from old new n s'
      | O =>
          if String.prefix old s
          then new +:+ replace_from old new (String.length old - 1) s'
          else String c (replace_from old new 0 s')
      end
  end.

Definition replace (old new s : string) : string := replace_from old new 0 s.

(** ** data.py: class Olist, loading *)

Module Olist.
Section Loader.

(** The frame type and [pd.read_csv] on the contents of a file are taken
    from pandas. *)
Variable DataFrame : Type.
Variable read_csv : string → outcome DataFrame.

(** What [get_data] sees of the file system: the entries (name, contents)
    of [<root>/data/csv], [None] when that directory does not exist, and the
    working directory, against which [os.remove] resolves the relative name
    it is given: [data/csv] itself, or another directory with its names. *)
Inductive working_directory :=
  | CsvDir
  | Elsewhere (names : list string).

Record world := World {
  csv_dir : option (list (string * string));
  cwd : working_directory
}.

(** State and exception monad over [world]. *)
Definition M (A : Type) : Type := world → outcome A * world.

#[local] Instance M_ret : MRet M := λ A a w, (Returns a, w).
#[local] Instance M_bind : MBind M := λ A B k m w,
  match m w with
  | (Returns a, w') => k a w'
  | (Raises e, w') => (Raises e, w')
  end.

Definition os_listdir : M (list string) :=
  λ w, match csv_dir w with
       | Some entries => (Returns (entries.*1), w)
       | None => (Raises FileNotFoundError, w)
       end.

Definition os_remove (filename : string) : M unit :=
  λ w, match cwd w, csv_dir w with
       | Elsewhere names, _ =>
           if decide (filename ∈ names)
           then (Returns tt,
                 World (csv_dir w)
                   (Elsewhere (filter (λ f, f ≠ filename) names)))
           else (Raises FileNotFoundError, w)
       | CsvDir, Some entries =>
           if decide (filename ∈ entries.*1)
           then (Returns tt,
                 World (Some (filter (λ e, e.1 ≠ filename) entries)) CsvDir)
           else (Raises FileNotFoundError, w)
       | CsvDir, None => (Raises FileNotFoundError, w)
       end.

Definition file_contents (file : string) (entries : list (string * string))
  : option string :=
  (λ found : nat * (string * string), found.2.2)
    <$> list_find (λ e, e.1 = file) entries.

Definition pd_read_csv (file : string) : M DataFrame :=
  λ w, match csv_dir w ≫= file_contents file with
       | Some contents => (read_csv contents, w)
       | None => (Raises FileNotFoundError, w)
       end.

Definition key_from_file_name (filename : string) : M string :=
  _ ← (if decide (filename = ".DS_Store") then os_remove filename
       else mret tt);
  mret (replace ".csv" ""
          (replace "_dataset.csv" "" (replace "olist_" "" filename))).

(** The loop body [data[key_from_file_name(file)] = pd.read_csv(...)]:
    Python evaluates the right-hand side of an assignment before the
    subscript of its target. *)
Fixpoint load (file_names : list string) (data : gmap string DataFrame)
  : M (gmap string DataFrame) :=
  match file_names with
  | [] => mret data
  | file :: rest =>
      df ← pd_read_csv file;
      key ← key_from_file_name file;
      load rest (<[key := df]> data)
  end.

Definition get_data : M (gmap string DataFrame) :=
  file_names ← os_listdir;
  load file_names ∅.

End Loader.
End Olist.

(** The key [key_from_file_name] returns for a file name. *)
Definition file_key (filename : string) : string :=
  replace ".csv" ""
    (replace "_dataset.csv" "" (replace "olist_" "" filename)).


(** ** Frames: the pandas operations the two modules call *)

Abbreviation cell := option (only parsing).

(** A cell seen without its column type, as [dropna] sees it. *)
Inductive value :=
  | NaN
  | Str (s : string)
  | Int (n : Z)
  | Num (q : Q).

Definition record : Type := list (string * value).

Definition str (c : cell string) : value := from_option Str NaN c.
Definition int (c : cell Z) : value := from_option Int NaN c.
Definition num (c : cell Q) : value := from_option Num NaN c.

Definition isna (v : value) : bool :=
  match v with NaN => true | _ => false end.

(** A row type lists its columns, in order, with their values. *)
Class Row (A : Type) := cells : A → record.

#[export] Instance record_row : Row record := λ r, r.

Definition lookup_column (name : string) (r : record) : option value :=
  (λ found : nat * (string * value), found.2.2)
    <$> list_find (λ cv, cv.1 = name) r.

(** [DataFrame.dropna()]: keep the rows without a missing value. *)
Definition complete {A} {row : Row A} (r : A) : Prop :=
  Forall (λ cv, isna cv.2 = false) (cells r).

Definition dropna {A} {row : Row A} (df : list A) : list A :=
  filter complete df.

(** Order of the keys, for the sorted result of [groupby]: code points for
    strings (byte order on UTF-8). *)
Class Ord (K : Type) := le_key : K → K → bool.
#[export] Instance string_ord : Ord string := String.leb.
#[export] Instance Z_ord : Ord Z := Z.leb.

Inductive outer (A B : Type) :=
  | Both (a : A) (b : B)
  | LeftOnly (a : A)
  | RightOnly (b : B).
Arguments Both {A B} a b.
Arguments LeftOnly {A B} a.
Arguments RightOnly {A B} b.

Section Merge.
Context {A B K : Type} `{EqDecision K, Ord K}.
Variable left_on : A → cell K.
Variable right_on : B → cell K.

(** pandas matches a missing key with a missing key. *)
Definition matching (a : A) (right : list B) : list B :=
  filter (λ b, left_on a = right_on b) right.

(** [left.merge(right, on=...)], [how='inner']. *)
Definition merge (left : list A) (right : list B) : list (A * B) :=
  a ← left; pair a <$> matching a right.

(** [how='left']: a left row without a match is kept, its right columns
    missing. *)
Definition merge_left (left : list A) (right : list B)
  : list (A * option B) :=
  a ← left;
  match matching a right with
  | [] => [(a, None)]
  | bs => (λ b, (a, Some b)) <$> bs
  end.

(** [how='outer']: the left rows with their matches, or alone, in the order
    of the left frame and each with its matches in the order of the right
    frame; then the right rows without a match, in the order of the right
    frame.  (pandas lists the rows key by key, and its later versions sort
    the keys; the properties below are about which rows the result has, and
    none depends on their order.) *)
Definition merge_outer (left : list A) (right : list B)
  : list (outer A B) :=
  let from_left :=
    a ← left;
    match matching a right with
    | [] => [LeftOnly a]
    | bs => Both a <$> bs
    end in
  let right_only :=
    RightOnly <$> filter (λ b, right_on b ∉ left_on <$> left) right in
  from_left ++ right_only.
End Merge.

Section GroupBy.
Context {A K : Type} `{EqDecision K, Ord K}.
Variable key : A → cell K.

(** [df.groupby(key)]: one group per key present, missing keys dropped,
    groups sorted by key, the rows of a group in the order of the frame. *)
Definition groupby (df : list A) : list (K * list A) :=
  (λ k, (k, filter (λ r, key r = Some k) df))
    <$> merge_sort (λ x y, le_key x y) (remove_dups (omap key df)).
End GroupBy.

(** Aggregations over the rows [g] of a group; all skip missing values. *)
Definition count {A B} (column : A → cell B) (g : list A) : Z :=
  Z.of_nat (length (omap column g)).

Definition nunique {A B} `{EqDecision B} (column : A → cell B) (g : list A)
  : Z :=
  Z.of_nat (length (remove_dups (omap column g))).

Definition total (xs : list Q) : Q := foldr Qplus 0%Q xs.

(** The sum of a list of integers, for statements about whole columns. *)
Definition add_up (ns : list Z) : Z := foldr Z.add 0 ns.

Definition sum {A} (column : A → cell Q) (g : list A) : Q :=
  total (omap column g).

(** [GroupBy.first()]: for each column, its first value that is not
    missing. *)
Definition first {A B} (column : A → cell B) (g : list A) : cell B :=
  head (omap column g).

Definition mean {A} (column : A → cell Q) (g : list A) : cell Q :=
  match omap column g with
  | [] => None
  | xs => Some (total xs / inject_Z (Z.of_nat (length xs)))%Q
  end.

(** [df.sort_values(column)], ascending, on an integer column.  Rows of
    equal value keep the order of the frame: each row is put before the
    first row, among those after it, whose value is not smaller.  (The
    default [quicksort] of pandas does not promise that order on every
    frame; no property below depends on the order of such rows.) *)
Definition ascending {A} (column : A → Z) : relation A :=
  λ x y, column x ≤ column y.

#[export] Instance ascending_dec {A} (column : A → Z) x y :
  Decision (ascending column x y) := Z_le_dec (column x) (column y).

Fixpoint insert_ascending {A} (column : A → Z) (x : A) (sorted : list A)
  : list A :=
  match sorted with
  | [] => [x]
  | y :: rest =>
      if decide (ascending column x y) then x :: y :: rest
      else y :: insert_ascending column x rest
  end.

Definition sort_values {A} (column : A → Z) (df : list A) : list A :=
  foldr (insert_ascending column) [] df.

(** ** The tables of the data set, with the columns the methods read *)

Module Orders.
Record row := Row {
  order_id : cell string;
  customer_id : cell string;
  order_status : cell string;
  order_purchase_timestamp : cell Z;
  order_delivered_customer_date : cell Z;
  order_estimated_delivery_date : cell Z
}.
End Orders.

Module OrderItems.
Record row := Row {
  order_id : cell string;
  order_item_id : cell Z;
  product_id : cell string;
  seller_id : cell string;
  price : cell Q;
  freight_value : cell Q
}.
End OrderItems.

Module OrderReviews.
Record row := Row {
  review_id : cell string;
  order_id : cell string;
  review_score : cell Z
}.
End OrderReviews.

Module Sellers.
Record row := Row {
  seller_id : cell string;
  seller_zip_code_prefix : cell Z;
  seller_city : cell string;
  seller_state : cell string
}.
End Sellers.

Module Customers.
Record row := Row {
  customer_id : cell string;
  customer_zip_code_prefix : cell Z;
  customer_city : cell string;
  customer_state : cell string
}.
End Customers.

Module Geolocation.
Record row := Row {
  geolocation_zip_code_prefix : cell Z;
  geolocation_lat : cell Q;
  geolocation_lng : cell Q
}.
End Geolocation.

(** The tables of the dictionary [get_data] returns that the methods index.
    [Order()] loads them once; [get_matching_table] loads them again, from
    the same files. *)
Record Data := {
  orders : list Orders.row;
  order_items : list OrderItems.row;
  order_reviews : list OrderReviews.row;
  sellers : list Sellers.row;
  customers : list Customers.row;
  geolocation : list Geolocation.row
}.

(** ** data.py: class Olist, the matching table *)

Module OrdersReviews.
Record row := Row {
  customer_id : cell string;
  order_id : cell string;
  review_id : cell string
}.
End OrdersReviews.

Module MatchingTable.
Record row := Row {
  customer_id : cell string;
  order_id : cell string;
  review_id : cell string;
  product_id : cell string;
  seller_id : cell string
}.
End MatchingTable.

(** Columns of [orders.merge(reviews, on='order_id', how='outer')]. *)
Definition orders_reviews_row (o : outer Orders.row OrderReviews.row)
  : OrdersReviews.row :=
  match o with
  | Both a b =>
      OrdersReviews.Row (Orders.customer_id a) (Orders.order_id a)
        (OrderReviews.review_id b)
  | LeftOnly a =>
      OrdersReviews.Row (Orders.customer_id a) (Orders.order_id a) None
  | RightOnly b =>
      OrdersReviews.Row None (OrderReviews.order_id b)
        (OrderReviews.review_id b)
  end.

(** Columns of [(...).merge(items, on='order_id', how='outer')]. *)
Definition matching_row (o : outer OrdersReviews.row OrderItems.row)
  : MatchingTable.row :=
  match o with
  | Both a b =>
      MatchingTable.Row (OrdersReviews.customer_id a)
        (OrdersReviews.order_id a) (OrdersReviews.review_id a)
        (OrderItems.product_id b) (OrderItems.seller_id b)
  | LeftOnly a =>
      MatchingTable.Row (OrdersReviews.customer_id a)
        (OrdersReviews.order_id a) (OrdersReviews.review_id a) None None
  | RightOnly b =>
      MatchingTable.Row None (OrderItems.order_id b) None
        (OrderItems.product_id b) (OrderItems.seller_id b)
  end.

Definition get_matching_table (data : Data) : list MatchingTable.row :=
  let orders := orders data in
  let items := order_items data in
  let reviews := order_reviews data in
  let orders_reviews :=
    orders_reviews_row
      <$> merge_outer Orders.order_id OrderReviews.order_id orders reviews in
  matching_row
    <$> merge_outer OrdersReviews.order_id OrderItems.order_id
          orders_reviews items.

(** ** order.py: class Order *)

Module WaitTime.
Record row := Row {
  order_id : cell string;
  wait_time : cell Q;
  expected_wait_time : cell Q;
  delay_vs_expected : cell Q
}.
End WaitTime.

Module ReviewScore.
Record row := Row {
  order_id : cell string;
  dim_is_five_star : Z;
  dim_is_one_star : Z;
  review_score : cell Z
}.
End ReviewScore.

Module NumberProducts.
Record row := Row {
  order_id : cell string;
  number_of_products : Z
}.
End NumberProducts.

Module NumberSellers.
Record row := Row {
  order_id : cell string;
  number_of_sellers : Z
}.
End NumberSellers.

Module PriceFreight.
Record row := Row {
  order_id : cell string;
  price : Q;
  freight_value : Q
}.
End PriceFreight.

Module SellersGeo.
Record row := Row {
  seller_id : cell string;
  seller_zip_code_prefix : cell Z;
  seller_city : cell string;
  seller_state : cell string;
  geolocation_lat : cell Q;
  geolocation_lng : cell Q
}.
End SellersGeo.

Module CustomersGeo.
Record row := Row {
  customer_id : cell string;
  customer_zip_code_prefix : cell Z;
  customer_city : cell string;
  customer_state : cell string;
  geolocation_lat : cell Q;
  geolocation_lng : cell Q
}.
End CustomersGeo.

Module Distance.
Record row := Row {
  order_id : cell string;
  distance_seller_customer : cell Q
}.
End Distance.

#[export] Instance wait_time_row : Row WaitTime.row := λ r,
  [("order_id", str (WaitTime.order_id r));
   ("wait_time", num (WaitTime.wait_time r));
   ("expected_wait_time", num (WaitTime.expected_wait_time r));
   ("delay_vs_expected", num (WaitTime.delay_vs_expected r))]%string.

#[export] Instance review_score_row : Row ReviewScore.row := λ r,
  [("order_id", str (ReviewScore.order_id r));
   ("dim_is_five_star", Int (ReviewScore.dim_is_five_star r));
   ("dim_is_one_star", Int (ReviewScore.dim_is_one_star r));
   ("review_score", int (ReviewScore.review_score r))]%string.

#[export] Instance number_products_row : Row NumberProducts.row := λ r,
  [("order_id", str (NumberProducts.order_id r));
   ("number_of_products", Int (NumberProducts.number_of_products r))]%string.

#[export] Instance number_sellers_row : Row NumberSellers.row := λ r,
  [("order_id", str (NumberSellers.order_id r));
   ("number_of_sellers", Int (NumberSellers.number_of_sellers r))]%string.

#[export] Instance price_freight_row : Row PriceFreight.row := λ r,
  [("order_id", str (PriceFreight.order_id r));
   ("price", Num (PriceFreight.price r));
   ("freight_value", Num (PriceFreight.freight_value r))]%string.

#[export] Instance distance_row : Row Distance.row := λ r,
  [("order_id", str (Distance.order_id r));
   ("distance_seller_customer",
    num (Distance.distance_seller_customer r))]%string.

(** Columns of [left.merge(right, on='order_id')]: those of the left row,
    then those of the right row but the key. *)
#[export] Instance merged_row `{Row A, Row B} : Row (A * B) := λ r,
  cells r.1 ++ filter (λ cv, cv.1 ≠ "order_id"%string) (cells r.2).

(** Columns of [matching_table.merge(sellers_geo, on='seller_id')
    .merge(customers_geo, on='customer_id', suffixes=('_seller','_customer'))]:
    each key once, the coordinate columns present on both sides suffixed. *)
Definition matching_geo_cells
    (r : MatchingTable.row * SellersGeo.row * CustomersGeo.row) : record :=
  let '(m, s, c) := r in
  [("customer_id", str (MatchingTable.customer_id m));
   ("order_id", str (MatchingTable.order_id m));
   ("review_id", str (MatchingTable.review_id m));
   ("product_id", str (MatchingTable.product_id m));
   ("seller_id", str (MatchingTable.seller_id m));
   ("seller_zip_code_prefix", int (SellersGeo.seller_zip_code_prefix s));
   ("seller_city", str (SellersGeo.seller_city s));
   ("seller_state", str (SellersGeo.seller_state s));
   ("geolocation_lat_seller", num (SellersGeo.geolocation_lat s));
   ("geolocation_lng_seller", num (SellersGeo.geolocation_lng s));
   ("customer_zip_code_prefix", int (CustomersGeo.customer_zip_code_prefix c));
   ("customer_city", str (CustomersGeo.customer_city c));
   ("customer_state", str (CustomersGeo.customer_state c));
   ("geolocation_lat_customer", num (CustomersGeo.geolocation_lat c));
   ("geolocation_lng_customer", num (CustomersGeo.geolocation_lng c))]%string.

Module Order.

(** [datetime.timedelta(days = 1)], in nanoseconds. *)
Definition one_day_delta : Z := 86400 * 1000000000.

(** Difference of two timestamp columns, and quotient of a time delta column
    by a time delta; a missing operand gives a missing result. *)
Definition minus (a b : cell Z) : cell Z :=
  x ← a; y ← b; Some (x - y).

Definition per (delta : cell Z) (unit : Z) : cell Q :=
  (λ ns, inject_Z ns / inject_Z unit)%Q <$> delta.

(** [delay < 0] on a float: false on [NaN]. *)
Definition negative (delay : cell Q) : bool :=
  match delay with
  | Some q => negb (Qle_bool 0 q)
  | None => false
  end.

Definition absolute_delay (delay : cell Q) : cell Q :=
  if negative delay then Qabs <$> delay else Some 0%Q.

(** [orders.query("order_status == 'delivered'")] when [is_delivered]. *)
Definition query_delivered (is_delivered : bool) (orders : list Orders.row)
  : list Orders.row :=
  if is_delivered
  then filter (λ o, Orders.order_status o = Some "delivered"%string) orders
  else orders.

Definition get_wait_time (is_delivered : bool) (data : Data)
  : list WaitTime.row :=
  let orders := orders data in
  let orders := query_delivered is_delivered orders in
  (λ o,
     let wait_time :=
       minus (Orders.order_delivered_customer_date o)
         (Orders.order_purchase_timestamp o) in
     let delay_vs_expected :=
       minus (Orders.order_estimated_delivery_date o)
         (Orders.order_delivered_customer_date o) in
     let expected_wait_time :=
       minus (Orders.order_estimated_delivery_date o)
         (Orders.order_purchase_timestamp o) in
     WaitTime.Row (Orders.order_id o)
       (per wait_time one_day_delta)
       (per expected_wait_time one_day_delta)
       (absolute_delay (per delay_vs_expected one_day_delta)))
    <$> orders.

Definition dim_five_star (score : cell Z) : Z :=
  if decide (score = Some 5) then 1 else 0.

Definition dim_one_star (score : cell Z) : Z :=
  if decide (score = Some 1) then 1 else 0.

Definition get_review_score (data : Data) : list ReviewScore.row :=
  let reviews := order_reviews data in
  (λ r,
     ReviewScore.Row (OrderReviews.order_id r)
       (dim_five_star (OrderReviews.review_score r))
       (dim_one_star (OrderReviews.review_score r))
       (OrderReviews.review_score r))
    <$> reviews.

Definition get_number_products (data : Data) : list NumberProducts.row :=
  let order_items := order_items data in
  sort_values NumberProducts.number_of_products
    ((λ '(k, g), NumberProducts.Row (Some k) (count OrderItems.order_item_id g))
       <$> groupby OrderItems.order_id order_items).

Definition get_number_sellers (data : Data) : list NumberSellers.row :=
  let sellers :=
    (λ '(k, g), NumberSellers.Row (Some k) (nunique OrderItems.seller_id g))
      <$> groupby OrderItems.order_id (order_items data) in
  sort_values NumberSellers.number_of_sellers sellers.

Definition get_price_and_freight (data : Data) : list PriceFreight.row :=
  (λ '(k, g),
     PriceFreight.Row (Some k) (sum OrderItems.price g)
       (sum OrderItems.freight_value g))
    <$> groupby OrderItems.order_id (order_items data).

Section DistanceCalculator.

(** [olist.utils.haversine_distance(lng1, lat1, lng2, lat2)], the great-circle
    distance in kilometres; its module is not part of the sources read
    here. *)
Variable haversine_distance : Q → Q → Q → Q → Q.

(** [geo.groupby('geolocation_zip_code_prefix', as_index = False).first()] *)
Definition geo (data : Data) : list Geolocation.row :=
  (λ '(k, g),
     Geolocation.Row (Some k) (first Geolocation.geolocation_lat g)
       (first Geolocation.geolocation_lng g))
    <$> groupby Geolocation.geolocation_zip_code_prefix (geolocation data).

Definition sellers_geo (data : Data) : list SellersGeo.row :=
  (λ '(s, g),
     SellersGeo.Row (Sellers.seller_id s) (Sellers.seller_zip_code_prefix s)
       (Sellers.seller_city s) (Sellers.seller_state s)
       (g ≫= Geolocation.geolocation_lat) (g ≫= Geolocation.geolocation_lng))
    <$> merge_left Sellers.seller_zip_code_prefix
          Geolocation.geolocation_zip_code_prefix (sellers data) (geo data).

Definition customers_geo (data : Data) : list CustomersGeo.row :=
  (λ '(c, g),
     CustomersGeo.Row (Customers.customer_id c)
       (Customers.customer_zip_code_prefix c) (Customers.customer_city c)
       (Customers.customer_state c)
       (g ≫= Geolocation.geolocation_lat) (g ≫= Geolocation.geolocation_lng))
    <$> merge_left Customers.customer_zip_code_prefix
          Geolocation.geolocation_zip_code_prefix (customers data) (geo data).

(** [matching_geo] as merged, then after [dropna()]. *)
Definition merged_geo (data : Data)
  : list (MatchingTable.row * SellersGeo.row * CustomersGeo.row) :=
  let matching_table := get_matching_table data in
  merge (λ r, MatchingTable.customer_id r.1) CustomersGeo.customer_id
    (merge MatchingTable.seller_id SellersGeo.seller_id matching_table
       (sellers_geo data))
    (customers_geo data).

Definition matching_geo (data : Data)
  : list (MatchingTable.row * SellersGeo.row * CustomersGeo.row) :=
  dropna (row := matching_geo_cells) (merged_geo data).

(** The column [distance_seller_customer] of a row of [matching_geo]; after
    [dropna()] the four coordinates are present. *)
Definition distance_seller_customer
    (r : MatchingTable.row * SellersGeo.row * CustomersGeo.row) : cell Q :=
  lng1 ← SellersGeo.geolocation_lng r.1.2;
  lat1 ← SellersGeo.geolocation_lat r.1.2;
  lng2 ← CustomersGeo.geolocation_lng r.2;
  lat2 ← CustomersGeo.geolocation_lat r.2;
  Some (haversine_distance lng1 lat1 lng2 lat2).

Definition get_distance_seller_customer (data : Data) : list Distance.row :=
  (λ '(k, g), Distance.Row (Some k) (mean distance_seller_customer g))
    <$> groupby (λ r, MatchingTable.order_id r.1.1) (matching_geo data).

(** The chain of inner merges of [get_training_data], before the optional
    merge with the distances and before [dropna()]. *)
Definition training_set (is_delivered : bool) (data : Data)
  : list (WaitTime.row * ReviewScore.row * NumberProducts.row
          * NumberSellers.row * PriceFreight.row) :=
  merge (λ r, WaitTime.order_id r.1.1.1) PriceFreight.order_id
    (merge (λ r, WaitTime.order_id r.1.1) NumberSellers.order_id
       (merge (λ r, WaitTime.order_id r.1) NumberProducts.order_id
          (merge WaitTime.order_id ReviewScore.order_id
             (get_wait_time is_delivered data) (get_review_score data))
          (get_number_products data))
       (get_number_sellers data))
    (get_price_and_freight data).

Definition get_training_data
    (is_delivered with_distance_seller_customer : bool) (data : Data)
  : list record :=
  let training_set := training_set is_delivered data in
  let training_set : list record :=
    if with_distance_seller_customer
    then cells
           <$> merge (λ r, WaitTime.order_id r.1.1.1.1) Distance.order_id
                 training_set (get_distance_seller_customer data)
    else cells <$> training_set in
  dropna training_set.

End DistanceCalculator.
End Order.

(** * Sample data sets *)

Module Samples.
Local Open Scope string_scope.

Definition day : Z := Order.one_day_delta.

(** A stand-in for the distance function, for evaluating the pipeline. *)
Definition taxicab (lng1 lat1 lng2 lat2 : Q) : Q :=
  (Qabs (lng1 - lng2) + Qabs (lat1 - lat2))%Q.

(** Order B is in transit; order A was delivered one day after the estimate,
    holds two items of two sellers and has a five-star review. *)
Definition in_transit : Orders.row :=
  Orders.Row (Some "B") (Some "c2") (Some "shipped")
    (Some 0) None (Some (5 * day)).

Definition shop : Data := {|
  orders :=
    [in_transit;
     Orders.Row (Some "A") (Some "c1") (Some "delivered")
       (Some 0) (Some (3 * day)) (Some (2 * day))];
  order_items :=
    [OrderItems.Row (Some "A") (Some 1) (Some "p1") (Some "s1")
       (Some 10%Q) (Some 5%Q);
     OrderItems.Row (Some "A") (Some 2) (Some "p2") (Some "s2")
       (Some 20%Q) (Some 5%Q)];
  order_reviews := [OrderReviews.Row (Some "r1") (Some "A") (Some 5)];
  sellers :=
    [Sellers.Row (Some "s1") (Some 100) (Some "sao paulo") (Some "SP");
     Sellers.Row (Some "s2") (Some 200) (Some "curitiba") (Some "PR")];
  customers :=
    [Customers.Row (Some "c1") (Some 100) (Some "sao paulo") (Some "SP")];
  geolocation :=
    [Geolocation.Row (Some 100) (Some 1%Q) (Some 2%Q);
     Geolocation.Row (Some 100) (Some 3%Q) (Some 4%Q);
     Geolocation.Row (Some 200) (Some 7%Q) (Some 8%Q)]
|}.

(** Two item rows of one order, from two sellers, whose item position is
    missing. *)
Definition unnumbered_items : Data := {|
  orders := []; order_reviews := []; sellers := []; customers := [];
  geolocation := [];
  order_items :=
    [OrderItems.Row (Some "A") None (Some "p1") (Some "s1")
       (Some 10%Q) (Some 5%Q);
     OrderItems.Row (Some "A") None (Some "p2") (Some "s2")
       (Some 20%Q) (Some 5%Q)]
|}.


(** Two delivered orders, a review of the first and an item of the
    second. *)
Definition crossed : Data := {|
  orders :=
    [Orders.Row (Some "A") (Some "c1") (Some "delivered")
       (Some 0) (Some (3 * day)) (Some (2 * day));
     Orders.Row (Some "B") (Some "c2") (Some "delivered")
       (Some 0) (Some (1 * day)) (Some (2 * day))];
  order_items :=
    [OrderItems.Row (Some "B") (Some 1) (Some "p1") (Some "s1")
       (Some 10%Q) (Some 5%Q)];
  order_reviews := [OrderReviews.Row (Some "r1") (Some "A") (Some 5)];
  sellers := []; customers := []; geolocation := []
|}.

(** A delivered order, and a review and an item of another order. *)
Definition strangers : Data := {|
  orders :=
    [Orders.Row (Some "A") (Some "c1") (Some "delivered")
       (Some 0) (Some (3 * day)) (Some (2 * day))];
  order_items :=
    [OrderItems.Row (Some "Z") (Some 1) (Some "p1") (Some "s1")
       (Some 10%Q) (Some 5%Q)];
  order_reviews := [OrderReviews.Row (Some "r1") (Some "Z") (Some 5)];
  sellers := []; customers := []; geolocation := []
|}.

(** An order with an item but without a review; seller and customer both
    have coordinates. *)
Definition unreviewed : Data := {|
  orders :=
    [Orders.Row (Some "A") (Some "c1") (Some "delivered")
       (Some 0) (Some (3 * day)) (Some (2 * day))];
  order_items :=
    [OrderItems.Row (Some "A") (Some 1) (Some "p1") (Some "s1")
       (Some 10%Q) (Some 5%Q)];
  order_reviews := [];
  sellers :=
    [Sellers.Row (Some "s1") (Some 100) (Some "sao paulo") (Some "SP")];
  customers :=
    [Customers.Row (Some "c1") (Some 200) (Some "curitiba") (Some "PR")];
  geolocation :=
    [Geolocation.Row (Some 100) (Some 1%Q) (Some 2%Q);
     Geolocation.Row (Some 200) (Some 7%Q) (Some 8%Q)]
|}.

(** Two points of one zip code prefix, the first without its latitude. *)
Definition gappy_geolocation : Data := {|
  orders := []; order_items := []; order_reviews := [];
  sellers := []; customers := [];
  geolocation :=
    [Geolocation.Row (Some 100) None (Some 2%Q);
     Geolocation.Row (Some 100) (Some 3%Q) (Some 4%Q)]
|}.

(** The row of order A in [get_wait_time]. *)
Definition late_row : WaitTime.row :=
  WaitTime.Row (Some "A")
    (Some (inject_Z (3 * day) / inject_Z day)%Q)
    (Some (inject_Z (2 * day) / inject_Z day)%Q)
    (Some (Qabs (inject_Z (2 * day - 3 * day) / inject_Z day))%Q).

End Samples.

(** * Properties *)

Import Order.

(** ** The model at work on the samples *)

Example key_of_prefixed_file :
  replace ".csv" ""
    (replace "_dataset.csv" ""
       (replace "olist_" "" "olist_order_items_dataset.csv"))
  = "order_items"%string.
Proof. reflexivity. Qed.

Example key_of_plain_file :
  replace ".csv" ""
    (replace "_dataset.csv" "" (replace "olist_" "" "orders.csv"))
  = "orders"%string.
Proof. reflexivity. Qed.

Example replace_without_overlap : replace "aa" "b" "aaa" = "ba"%string.
Proof. reflexivity. Qed.

(** Two files give two keys; the world is left as it was. *)
Example get_data_two_files :
  let w :=
    Olist.World
      (Some [("olist_orders_dataset.csv", "order_id");
             ("sellers.csv", "seller_id")]%string)
      (Olist.Elsewhere []) in
  Olist.get_data string Returns w
  = (Returns (<["sellers"%string := "seller_id"%string]>
                (<["orders"%string := "order_id"%string]> ∅)), w).
Proof. reflexivity. Qed.

(** A [.DS_Store] entry: the file is read first, then [os.remove] looks for
    the name in the working directory. *)
Example get_data_ds_store :
  let w :=
    Olist.World (Some [(".DS_Store", "Bud1")]%string) (Olist.Elsewhere []) in
  Olist.get_data string Returns w = (Raises FileNotFoundError, w).
Proof. reflexivity. Qed.

Example shop_wait_time :
  get_wait_time true Samples.shop = [Samples.late_row]
  ∧ length (get_wait_time false Samples.shop) = 2%nat.
Proof. split; reflexivity. Qed.

Example shop_review_score :
  get_review_score Samples.shop
  = [ReviewScore.Row (Some "A"%string) 1 0 (Some 5)].
Proof. reflexivity. Qed.

Example shop_counts_and_totals :
  get_number_products Samples.shop
  = [NumberProducts.Row (Some "A"%string) 2]
  ∧ get_number_sellers Samples.shop
    = [NumberSellers.Row (Some "A"%string) 2]
  ∧ get_price_and_freight Samples.shop
    = [PriceFreight.Row (Some "A"%string) 30%Q 10%Q].
Proof. repeat split. Qed.

(** ** Rational arithmetic of the day counts *)

Lemma negative_spec (q : Q) : negative (Some q) = true ↔ (q < 0)%Q.
Proof.
  unfold negative. rewrite negb_true_iff.
  split.
  - intros Hle. apply Qnot_le_lt. intros Hq.
    apply Qle_bool_iff in Hq. congruence.
  - intros Hlt. destruct (Qle_bool 0 q) eqn:Hle; [|done].
    apply Qle_bool_iff in Hle. exfalso. by apply (Qlt_not_le q 0).
Qed.


Lemma days_negative (ns : Z) :
  (inject_Z ns / inject_Z one_day_delta < 0)%Q ↔ ns < 0.
Proof.
  unfold Qlt, Qdiv, Qmult, Qinv, inject_Z, one_day_delta. simpl. lia.
Qed.

Lemma days_opp (ns : Z) :
  (- (inject_Z ns / inject_Z one_day_delta)
   == inject_Z (- ns) / inject_Z one_day_delta)%Q.
Proof.
  unfold Qeq, Qopp, Qdiv, Qmult, Qinv, inject_Z, one_day_delta. simpl. lia.
Qed.

Lemma absolute_delay_nonneg (delay : cell Q) :
  ∃ q, absolute_delay delay = Some q ∧ (0 <= q)%Q.
Proof.
  unfold absolute_delay. destruct (negative delay) eqn:Hneg.
  - destruct delay as [d|]; [|done].
    exists (Qabs d). split; [done|]. apply Qabs_nonneg.
  - exists 0%Q. split; [done|]. apply Qle_refl.
Qed.

(** ** get_wait_time *)

Lemma get_wait_time_lookup (is_delivered : bool) (data : Data) (i : nat)
    (w : WaitTime.row) :
  get_wait_time is_delivered data !! i = Some w →
  ∃ o, query_delivered is_delivered (orders data) !! i = Some o
       ∧ WaitTime.order_id w = Orders.order_id o
       ∧ WaitTime.wait_time w
         = per (minus (Orders.order_delivered_customer_date o)
                  (Orders.order_purchase_timestamp o)) one_day_delta
       ∧ WaitTime.delay_vs_expected w
         = absolute_delay
             (per (minus (Orders.order_estimated_delivery_date o)
                     (Orders.order_delivered_customer_date o)) one_day_delta).
Proof.
  unfold get_wait_time. rewrite list_lookup_fmap.
  destruct (query_delivered _ _ !! i) as [o|]; [|done].
  intros [= <-]. by exists o.
Qed.

(** C2: in the output of [get_wait_time], row by row, [delay_vs_expected] is
    the number of days by which the delivery date exceeds the estimated date
    when the estimate minus the delivery is negative, and 0 when it is not;
    it is never negative. *)
Theorem delay_vs_expected_is_lateness (is_delivered : bool) (data : Data)
    (i : nat) (w : WaitTime.row) :
  get_wait_time is_delivered data !! i = Some w →
  ∃ o, query_delivered is_delivered (orders data) !! i = Some o
    ∧ (∃ q, WaitTime.delay_vs_expected w = Some q ∧ (0 <= q)%Q)
    ∧ ∀ estimated delivered,
        Orders.order_estimated_delivery_date o = Some estimated →
        Orders.order_delivered_customer_date o = Some delivered →
        (estimated - delivered < 0 →
         ∃ q, WaitTime.delay_vs_expected w = Some q
              ∧ (q == inject_Z (delivered - estimated)
                      / inject_Z one_day_delta)%Q)
        ∧ (0 ≤ estimated - delivered →
           WaitTime.delay_vs_expected w = Some 0%Q).
Proof.
  intros Hw.
  destruct (get_wait_time_lookup _ _ _ _ Hw) as (o & Ho & _ & _ & Hdelay).
  exists o. split; [done|]. rewrite Hdelay. split.
  { apply absolute_delay_nonneg. }
  intros estimated delivered -> ->. simpl.
  set (d := (inject_Z (estimated - delivered) / inject_Z one_day_delta)%Q).
  unfold absolute_delay. split.
  - intros Hlate.
    assert (d < 0)%Q as Hd by by apply days_negative.
    rewrite (proj2 (negative_spec d) Hd). simpl.
    exists (Qabs d). split; [done|].
    rewrite Qabs_neg by by apply Qlt_le_weak.
    unfold d. rewrite days_opp.
    by replace (- (estimated - delivered)) with (delivered - estimated) by lia.
  - intros Hearly.
    destruct (negative (Some d)) eqn:Hneg; [|done].
    apply negative_spec in Hneg.
    pose proof (proj1 (days_negative (estimated - delivered)) Hneg). lia.
Qed.

Lemma delay_vs_expected_is_lateness_witness :
  get_wait_time true Samples.shop !! 0%nat = Some Samples.late_row
  ∧ ∃ q, WaitTime.delay_vs_expected Samples.late_row = Some q
         ∧ (q == inject_Z (3 * Samples.day - 2 * Samples.day)
                 / inject_Z one_day_delta)%Q.
Proof.
  split; [reflexivity|].
  destruct (delay_vs_expected_is_lateness true Samples.shop 0
              Samples.late_row eq_refl) as (o & Ho & _ & Hcases).
  injection Ho as <-.
  destruct (Hcases (2 * Samples.day) (3 * Samples.day) eq_refl eq_refl)
    as [Hlate _].
  apply Hlate. reflexivity.
Defined.

(** C4: with [is_delivered] the output holds one row for each order whose
    status is "delivered", in the order of the table, and no other row;
    without it, one row for each order. *)
Theorem get_wait_time_rows (data : Data) :
  WaitTime.order_id <$> get_wait_time true data
  = Orders.order_id
      <$> filter (λ o, Orders.order_status o = Some "delivered"%string)
            (orders data)
  ∧ length (get_wait_time true data)
    = length (filter (λ o, Orders.order_status o = Some "delivered"%string)
                (orders data))
  ∧ WaitTime.order_id <$> get_wait_time false data
    = Orders.order_id <$> orders data
  ∧ length (get_wait_time false data) = length (orders data).
Proof.
  unfold get_wait_time, query_delivered.
  rewrite <- !list_fmap_compose, !length_fmap. done.
Qed.

(** C10: an order without a delivery date gets [delay_vs_expected] 0, not a
    missing value, while its [wait_time] is missing. *)
Theorem undelivered_delay_is_zero (is_delivered : bool) (data : Data)
    (i : nat) (o : Orders.row) :
  query_delivered is_delivered (orders data) !! i = Some o →
  Orders.order_delivered_customer_date o = None →
  ∃ w, get_wait_time is_delivered data !! i = Some w
       ∧ WaitTime.order_id w = Orders.order_id o
       ∧ WaitTime.delay_vs_expected w = Some 0%Q
       ∧ WaitTime.wait_time w = None.
Proof.
  intros Ho Hmissing. unfold get_wait_time.
  rewrite list_lookup_fmap, Ho. simpl. eexists. split; [done|].
  rewrite Hmissing. simpl.
  by destruct (Orders.order_estimated_delivery_date o).
Qed.

Lemma undelivered_delay_is_zero_witness :
  query_delivered false (orders Samples.shop) !! 0%nat
  = Some Samples.in_transit
  ∧ Orders.order_delivered_customer_date Samples.in_transit = None
  ∧ ∃ w, get_wait_time false Samples.shop !! 0%nat = Some w
         ∧ WaitTime.order_id w = Some "B"%string
         ∧ WaitTime.delay_vs_expected w = Some 0%Q
         ∧ WaitTime.wait_time w = None.
Proof.
  split; [reflexivity|]. split; [reflexivity|].
  apply (undelivered_delay_is_zero false Samples.shop 0 Samples.in_transit);
    reflexivity.
Defined.

(** ** get_data *)

Section LoaderFacts.
Context {DataFrame : Type} (read_csv : string → outcome DataFrame).

Lemma get_data_no_directory (w : Olist.world) :
  Olist.csv_dir w = None →
  Olist.get_data DataFrame read_csv w = (Raises FileNotFoundError, w).
Proof.
  intros Hdir. unfold Olist.get_data, mbind, Olist.M_bind, Olist.os_listdir.
  by rewrite Hdir.
Qed.

Lemma get_data_no_file (w : Olist.world) :
  Olist.csv_dir w = Some [] →
  Olist.get_data DataFrame read_csv w = (Returns ∅, w).
Proof.
  intros Hdir. unfold Olist.get_data, mbind, Olist.M_bind, Olist.os_listdir.
  by rewrite Hdir.
Qed.

Lemma get_data_unreadable (w : Olist.world) file contents rest e :
  Olist.csv_dir w = Some ((file, contents) :: rest) →
  read_csv contents = Raises e →
  Olist.get_data DataFrame read_csv w = (Raises e, w).
Proof.
  intros Hdir Hread.
  unfold Olist.get_data, mbind, Olist.M_bind, Olist.os_listdir.
  rewrite Hdir. simpl.
  unfold mbind, Olist.M_bind, Olist.pd_read_csv. rewrite Hdir. simpl.
  unfold Olist.file_contents. simpl.
  rewrite decide_True by done. simpl. by rewrite Hread.
Qed.

End LoaderFacts.

(** C8, as stated, fails: on an existing directory without any file
    [get_data] returns the empty dictionary, and on a missing directory the
    exception is the [FileNotFoundError] of [os.listdir]. *)
Lemma get_data_never_missing_data_error :
  let read_csv := λ _ : string, Returns tt in
  let empty := Olist.World (Some []) (Olist.Elsewhere []) in
  let absent := Olist.World None (Olist.Elsewhere []) in
  (Olist.get_data unit read_csv empty).1 = Returns ∅
  ∧ (Olist.get_data unit read_csv empty).1 ≠ Raises MissingDataError
  ∧ (Olist.get_data unit read_csv absent).1 = Raises FileNotFoundError
  ∧ (Olist.get_data unit read_csv absent).1 ≠ Raises MissingDataError.
Proof. repeat split; (reflexivity || discriminate). Qed.

(** C8, amended: a missing source directory makes [get_data] fail with the
    [FileNotFoundError] of [os.listdir]; an existing directory without files
    gives the empty dictionary; a first file that [pd.read_csv] rejects makes
    [get_data] fail with the exception of [pd.read_csv]. *)
Theorem get_data_missing_empty_unreadable {DataFrame : Type}
    (read_csv : string → outcome DataFrame) (w : Olist.world) :
  (Olist.csv_dir w = None →
   Olist.get_data DataFrame read_csv w = (Raises FileNotFoundError, w))
  ∧ (Olist.csv_dir w = Some [] →
     Olist.get_data DataFrame read_csv w = (Returns ∅, w))
  ∧ (∀ file contents rest e,
       Olist.csv_dir w = Some ((file, contents) :: rest) →
       read_csv contents = Raises e →
       Olist.get_data DataFrame read_csv w = (Raises e, w)).
Proof.
  split; [apply get_data_no_directory|].
  split; [apply get_data_no_file|].
  intros file contents rest e. apply get_data_unreadable.
Qed.

Lemma get_data_missing_empty_unreadable_witness :
  let read_csv := λ contents : string,
    if decide (contents = ""%string)
    then Raises (ReadError "No columns to parse from file")
    else Returns contents in
  Olist.get_data string read_csv (Olist.World None (Olist.Elsewhere []))
  = (Raises FileNotFoundError, Olist.World None (Olist.Elsewhere []))
  ∧ Olist.get_data string read_csv (Olist.World (Some []) (Olist.Elsewhere []))
    = (Returns ∅, Olist.World (Some []) (Olist.Elsewhere []))
  ∧ Olist.get_data string read_csv
      (Olist.World (Some [("olist_orders_dataset.csv", "")]%string)
         (Olist.Elsewhere []))
    = (Raises (ReadError "No columns to parse from file"),
       Olist.World (Some [("olist_orders_dataset.csv", "")]%string)
         (Olist.Elsewhere [])).
Proof.
  intros read_csv. split; [|split].
  - apply (get_data_missing_empty_unreadable read_csv
             (Olist.World None (Olist.Elsewhere []))).
    reflexivity.
  - apply (get_data_missing_empty_unreadable read_csv
             (Olist.World (Some []) (Olist.Elsewhere []))).
    reflexivity.
  - apply (get_data_missing_empty_unreadable read_csv
             (Olist.World (Some [("olist_orders_dataset.csv", "")]%string)
                (Olist.Elsewhere [])))
      with (file := "olist_orders_dataset.csv"%string)
                 (contents := ""%string) (rest := []);
      reflexivity.
Defined.

(** ** Frame operations *)

Section FrameFacts.
Context {A B K : Type} `{EqDecision K, Ord K}.
Implicit Types (left : list A) (right : list B).

Lemma elem_of_merge_sort (R : relation A) `{∀ x y, Decision (R x y)}
    (l : list A) (x : A) :
  x ∈ merge_sort R l ↔ x ∈ l.
Proof. by rewrite merge_sort_Permutation. Qed.

Lemma insert_ascending_Permutation (column : A → Z) (x : A) (l : list A) :
  insert_ascending column x l ≡ₚ x :: l.
Proof.
  induction l as [|y l IH]; simpl; [done|].
  case_decide; [done|]. rewrite IH. apply Permutation_swap.
Qed.

Lemma sort_values_Permutation (column : A → Z) (df : list A) :
  sort_values column df ≡ₚ df.
Proof.
  unfold sort_values. induction df as [|x df IH]; simpl; [done|].
  by rewrite insert_ascending_Permutation, IH.
Qed.

Lemma elem_of_sort_values (column : A → Z) (df : list A) (x : A) :
  x ∈ sort_values column df ↔ x ∈ df.
Proof. by rewrite sort_values_Permutation. Qed.

Lemma elem_of_matching (left_on : A → cell K) (right_on : B → cell K)
    a right b :
  b ∈ matching left_on right_on a right ↔ left_on a = right_on b ∧ b ∈ right.
Proof. unfold matching. by rewrite list_elem_of_filter. Qed.

(** The inner merge is the relational join: the pairs of a left and a right
    row with the same key. *)
Lemma elem_of_merge (left_on : A → cell K) (right_on : B → cell K)
    left right a b :
  (a, b) ∈ merge left_on right_on left right
  ↔ a ∈ left ∧ b ∈ right ∧ left_on a = right_on b.
Proof.
  unfold merge. rewrite list_elem_of_bind. split.
  - intros (a' & Hab & Ha).
    apply list_elem_of_fmap in Hab as (b' & [= -> ->] & Hb).
    apply elem_of_matching in Hb. naive_solver.
  - intros (Ha & Hb & Hkey). exists a. split; [|done].
    apply list_elem_of_fmap. exists b. split; [done|].
    by apply elem_of_matching.
Qed.

Lemma merge_nil_iff (left_on : A → cell K) (right_on : B → cell K)
    left right :
  merge left_on right_on left right = []
  ↔ ∀ a b, a ∈ left → b ∈ right → left_on a ≠ right_on b.
Proof.
  split.
  - intros Hnil a b Ha Hb Hkey.
    assert ((a, b) ∈ merge left_on right_on left right) as Hin
      by by apply elem_of_merge.
    rewrite Hnil in Hin. by apply not_elem_of_nil in Hin.
  - intros Hdisjoint.
    destruct (merge left_on right_on left right) as [|[a b] rest] eqn:Hm;
      [done|].
    assert ((a, b) ∈ merge left_on right_on left right) as Hin
      by (rewrite Hm; left).
    apply elem_of_merge in Hin as (Ha & Hb & Hkey).
    by destruct (Hdisjoint a b).
Qed.

End FrameFacts.

Lemma elem_of_dropna {A} {row : Row A} (df : list A) (r : A) :
  r ∈ dropna df ↔ complete r ∧ r ∈ df.
Proof. unfold dropna. by rewrite list_elem_of_filter. Qed.

(** No cell of a complete row is missing. *)
Lemma complete_no_nan {A} {row : Row A} (r : A) (name : string) (v : value) :
  complete r → (name, v) ∈ cells r → v ≠ NaN.
Proof.
  unfold complete. rewrite Forall_forall. intros Hall Hin ->.
  by specialize (Hall _ Hin).
Qed.

Section GroupByFacts.
Context {A K : Type} `{EqDecision K, Ord K}.
Variable key : A → cell K.

Lemma elem_of_groupby (df : list A) (k : K) (g : list A) :
  (k, g) ∈ groupby key df
  ↔ (∃ r, r ∈ df ∧ key r = Some k) ∧ g = filter (λ r, key r = Some k) df.
Proof.
  unfold groupby. rewrite list_elem_of_fmap.
  setoid_rewrite elem_of_merge_sort.
  setoid_rewrite elem_of_remove_dups.
  setoid_rewrite list_elem_of_omap.
  naive_solver.
Qed.

(** One group per key. *)
Lemma NoDup_groupby_keys (df : list A) : NoDup ((groupby key df).*1).
Proof.
  unfold groupby. rewrite <- list_fmap_compose.
  set (keys := merge_sort _ _).
  assert (NoDup keys) as Hkeys.
  { unfold keys. rewrite merge_sort_Permutation. apply NoDup_remove_dups. }
  clearbody keys. induction Hkeys; simpl; constructor; auto.
  rewrite list_elem_of_fmap. intros (y & -> & Hy). done.
Qed.

Lemma groupby_functional (df : list A) (k : K) (g g' : list A) :
  (k, g) ∈ groupby key df → (k, g') ∈ groupby key df → g = g'.
Proof.
  rewrite !elem_of_groupby. by intros [_ ->] [_ ->].
Qed.

End GroupByFacts.

(** ** Counting products and sellers *)

Section Counting.
Context {A B : Type}.

Lemma length_omap_le (f : A → option B) (l : list A) :
  (length (omap f l) ≤ length l)%nat.
Proof.
  induction l as [|x l IH]; csimpl; [lia|]. destruct (f x); simpl; lia.
Qed.

Lemma length_omap_present (f : A → option B) (l : list A) :
  (∀ x, x ∈ l → f x ≠ None) → length (omap f l) = length l.
Proof.
  induction l as [|x l IH]; intros Hpresent; csimpl; [done|].
  destruct (f x) eqn:Hx.
  - simpl. f_equal. apply IH. intros y Hy. apply Hpresent. by right.
  - destruct (Hpresent x); [left|done].
Qed.

Lemma length_remove_dups_le `{EqDecision A} (l : list A) :
  (length (remove_dups l) ≤ length l)%nat.
Proof. induction l as [|x l IH]; simpl; [lia|]. case_decide; simpl; lia. Qed.

End Counting.

(** Distinct values of one column against present values of another. *)
Lemma nunique_le_count {A B C} `{EqDecision B} (distinct : A → cell B)
    (counted : A → cell C) (g : list A) :
  (∀ r, r ∈ g → counted r ≠ None) →
  nunique distinct g ≤ count counted g.
Proof.
  intros Hpresent. unfold nunique, count.
  rewrite (length_omap_present counted g Hpresent).
  pose proof (length_remove_dups_le (omap distinct g)).
  pose proof (length_omap_le distinct g). lia.
Qed.

Lemma elem_of_get_number_products (data : Data) (r : NumberProducts.row) :
  r ∈ get_number_products data
  ↔ ∃ k g, (k, g) ∈ groupby OrderItems.order_id (order_items data)
           ∧ r = NumberProducts.Row (Some k)
                   (count OrderItems.order_item_id g).
Proof.
  unfold get_number_products. rewrite elem_of_sort_values, list_elem_of_fmap.
  split.
  - intros ([k g] & -> & Hin). by exists k, g.
  - intros (k & g & Hin & ->). by exists (k, g).
Qed.

Lemma elem_of_get_number_sellers (data : Data) (r : NumberSellers.row) :
  r ∈ get_number_sellers data
  ↔ ∃ k g, (k, g) ∈ groupby OrderItems.order_id (order_items data)
           ∧ r = NumberSellers.Row (Some k) (nunique OrderItems.seller_id g).
Proof.
  unfold get_number_sellers. rewrite elem_of_sort_values, list_elem_of_fmap.
  split.
  - intros ([k g] & -> & Hin). by exists k, g.
  - intros (k & g & Hin & ->). by exists (k, g).
Qed.

Lemma elem_of_get_price_and_freight (data : Data) (r : PriceFreight.row) :
  r ∈ get_price_and_freight data
  ↔ ∃ k g, (k, g) ∈ groupby OrderItems.order_id (order_items data)
           ∧ r = PriceFreight.Row (Some k) (sum OrderItems.price g)
                   (sum OrderItems.freight_value g).
Proof.
  unfold get_price_and_freight. rewrite list_elem_of_fmap.
  split.
  - intros ([k g] & -> & Hin). by exists k, g.
  - intros (k & g & Hin & ->). by exists (k, g).
Qed.

(** C6, as stated, fails: [count()] skips the rows whose [order_item_id] is
    missing, [nunique()] does not look at that column. *)
Lemma more_sellers_than_products :
  get_number_sellers Samples.unnumbered_items
  = [NumberSellers.Row (Some "A"%string) 2]
  ∧ get_number_products Samples.unnumbered_items
    = [NumberProducts.Row (Some "A"%string) 0]
  ∧ ¬ (2 ≤ 0).
Proof. repeat split. lia. Qed.

(** C6, amended: for an order of the items table whose rows all carry an
    [order_item_id], each of the two frames has rows for that order, all with
    one count, and the count of distinct sellers is at most the count of
    products. *)
Theorem number_of_sellers_le_number_of_products (data : Data) (k : string) :
  (∃ r, r ∈ order_items data ∧ OrderItems.order_id r = Some k) →
  (∀ r, r ∈ order_items data → OrderItems.order_id r = Some k →
        OrderItems.order_item_id r ≠ None) →
  ∃ n_sellers n_products,
    NumberSellers.Row (Some k) n_sellers ∈ get_number_sellers data
    ∧ NumberProducts.Row (Some k) n_products ∈ get_number_products data
    ∧ (∀ r, r ∈ get_number_sellers data →
            NumberSellers.order_id r = Some k →
            NumberSellers.number_of_sellers r = n_sellers)
    ∧ (∀ r, r ∈ get_number_products data →
            NumberProducts.order_id r = Some k →
            NumberProducts.number_of_products r = n_products)
    ∧ n_sellers ≤ n_products.
Proof.
  intros Hpresent Hnumbered.
  set (g := filter (λ r, OrderItems.order_id r = Some k) (order_items data)).
  assert ((k, g) ∈ groupby OrderItems.order_id (order_items data)) as Hg
    by by apply elem_of_groupby.
  exists (nunique OrderItems.seller_id g), (count OrderItems.order_item_id g).
  split; [apply elem_of_get_number_sellers; by exists k, g|].
  split; [apply elem_of_get_number_products; by exists k, g|].
  split; [|split].
  - intros r (k' & g' & Hg' & ->)%elem_of_get_number_sellers [= ->].
    by rewrite (groupby_functional _ _ _ _ _ Hg' Hg).
  - intros r (k' & g' & Hg' & ->)%elem_of_get_number_products [= ->].
    by rewrite (groupby_functional _ _ _ _ _ Hg' Hg).
  - apply nunique_le_count. intros r [Hk Hr]%list_elem_of_filter.
    by apply Hnumbered.
Qed.

Lemma number_of_sellers_le_number_of_products_witness :
  (∃ r, r ∈ order_items Samples.shop ∧ OrderItems.order_id r = Some "A"%string)
  ∧ ∃ n_sellers n_products,
      NumberSellers.Row (Some "A"%string) n_sellers
        ∈ get_number_sellers Samples.shop
      ∧ NumberProducts.Row (Some "A"%string) n_products
        ∈ get_number_products Samples.shop
      ∧ n_sellers ≤ n_products.
Proof.
  assert (∃ r, r ∈ order_items Samples.shop
               ∧ OrderItems.order_id r = Some "A"%string) as Hpresent.
  { eexists. split; [left|reflexivity]. }
  split; [exact Hpresent|].
  destruct (number_of_sellers_le_number_of_products Samples.shop "A"%string
              Hpresent) as (s & p & Hs & Hp & _ & _ & Hle).
  - intros r Hr _. simpl in Hr.
    repeat (apply elem_of_cons in Hr as [->|Hr]; [discriminate|]).
    by apply not_elem_of_nil in Hr.
  - by exists s, p.
Defined.

(** ** The matching table *)

Section OuterMergeFacts.
Context {A B K : Type} `{EqDecision K, Ord K}.
Variable left_on : A → cell K.
Variable right_on : B → cell K.

(** The outer merge is the full outer join: the matching pairs, the left
    rows without a match and the right rows without a match. *)
Lemma elem_of_merge_outer (left : list A) (right : list B) (o : outer A B) :
  o ∈ merge_outer left_on right_on left right
  ↔ match o with
    | Both a b => a ∈ left ∧ b ∈ right ∧ left_on a = right_on b
    | LeftOnly a => a ∈ left ∧ ∀ b, b ∈ right → left_on a ≠ right_on b
    | RightOnly b => b ∈ right ∧ ∀ a, a ∈ left → left_on a ≠ right_on b
    end.
Proof.
  unfold merge_outer. rewrite elem_of_app. split.
  - intros [Hleft|Hright].
    + apply list_elem_of_bind in Hleft as (a & Ho & Ha).
      destruct (matching left_on right_on a right) as [|b0 bs] eqn:Hm.
      * apply list_elem_of_singleton in Ho as ->. split; [done|].
        intros b Hb Hkey.
        assert (b ∈ matching left_on right_on a right) as Hin
          by by apply elem_of_matching.
        rewrite Hm in Hin. by apply not_elem_of_nil in Hin.
      * apply list_elem_of_fmap in Ho as (b & -> & Hb).
        rewrite <- Hm in Hb. by apply elem_of_matching in Hb as [? ?].
    + apply list_elem_of_fmap in Hright as (b & -> & Hb).
      apply list_elem_of_filter in Hb as [Hnot Hb]. split; [done|].
      intros a Ha Hkey. apply Hnot. rewrite <- Hkey.
      by apply list_elem_of_fmap_2.
  - destruct o as [a b|a|b].
    + intros (Ha & Hb & Hkey). left. apply list_elem_of_bind.
      exists a. split; [|done].
      assert (b ∈ matching left_on right_on a right) as Hin
        by by apply elem_of_matching.
      destruct (matching left_on right_on a right) eqn:Hm;
        [by apply not_elem_of_nil in Hin|].
      by apply list_elem_of_fmap_2.
    + intros (Ha & Hnone). left. apply list_elem_of_bind.
      exists a. split; [|done].
      destruct (matching left_on right_on a right) as [|b bs] eqn:Hm; [left|].
      assert (b ∈ matching left_on right_on a right) as Hin
        by (rewrite Hm; left).
      apply elem_of_matching in Hin as [? ?]. by destruct (Hnone b).
    + intros (Hb & Hnone). right. apply list_elem_of_fmap_2.
      apply list_elem_of_filter. split; [|done].
      intros (a & Hkey & Ha)%list_elem_of_fmap. by destruct (Hnone a).
Qed.

(** No left row is lost. *)
Lemma merge_outer_keeps_left (left : list A) (right : list B) (a : A) :
  a ∈ left →
  (∃ b, Both a b ∈ merge_outer left_on right_on left right)
  ∨ (LeftOnly a ∈ merge_outer left_on right_on left right
     ∧ ∀ b, b ∈ right → left_on a ≠ right_on b).
Proof.
  intros Ha.
  destruct (matching left_on right_on a right) as [|b bs] eqn:Hm.
  - right.
    assert (∀ b, b ∈ right → left_on a ≠ right_on b) as Hnone.
    { intros b Hb Hkey.
      assert (b ∈ matching left_on right_on a right) as Hin
        by by apply elem_of_matching.
      rewrite Hm in Hin. by apply not_elem_of_nil in Hin. }
    split; [|done]. by apply elem_of_merge_outer.
  - left. exists b.
    assert (b ∈ matching left_on right_on a right) as Hin
      by (rewrite Hm; left).
    apply elem_of_matching in Hin as [? ?]. by apply elem_of_merge_outer.
Qed.

(** No right row is lost. *)
Lemma merge_outer_keeps_right (left : list A) (right : list B) (b : B) :
  b ∈ right →
  (∃ a, Both a b ∈ merge_outer left_on right_on left right)
  ∨ RightOnly b ∈ merge_outer left_on right_on left right.
Proof.
  intros Hb.
  destruct (decide (right_on b ∈ left_on <$> left)) as [Hin|Hnot].
  - left. apply list_elem_of_fmap in Hin as (a & Hkey & Ha).
    exists a. by apply elem_of_merge_outer.
  - right. apply elem_of_merge_outer. split; [done|].
    intros a Ha Hkey. apply Hnot. rewrite <- Hkey.
    by apply list_elem_of_fmap_2.
Qed.

End OuterMergeFacts.

Lemma orders_reviews_keeps_order (data : Data) (o : Orders.row) :
  o ∈ orders data →
  ∃ x, x ∈ orders_reviews_row
             <$> merge_outer Orders.order_id OrderReviews.order_id
                   (orders data) (order_reviews data)
       ∧ OrdersReviews.order_id x = Orders.order_id o
       ∧ OrdersReviews.customer_id x = Orders.customer_id o
       ∧ ((∀ r, r ∈ order_reviews data →
                OrderReviews.order_id r ≠ Orders.order_id o) →
          OrdersReviews.review_id x = None).
Proof.
  intros Ho.
  destruct (merge_outer_keeps_left Orders.order_id OrderReviews.order_id
              (orders data) (order_reviews data) o Ho)
    as [[r Hboth]|[Hleft Hnone]].
  - exists (orders_reviews_row (Both o r)).
    split; [by apply list_elem_of_fmap_2|].
    apply elem_of_merge_outer in Hboth as (_ & Hr & Hkey).
    repeat split. intros Hnone. by destruct (Hnone r Hr).
  - exists (orders_reviews_row (LeftOnly o)).
    split; [by apply list_elem_of_fmap_2|]. done.
Qed.

Lemma orders_reviews_keeps_review (data : Data) (r : OrderReviews.row) :
  r ∈ order_reviews data →
  ∃ x, x ∈ orders_reviews_row
             <$> merge_outer Orders.order_id OrderReviews.order_id
                   (orders data) (order_reviews data)
       ∧ OrdersReviews.order_id x = OrderReviews.order_id r
       ∧ OrdersReviews.review_id x = OrderReviews.review_id r.
Proof.
  intros Hr.
  destruct (merge_outer_keeps_right Orders.order_id OrderReviews.order_id
              (orders data) (order_reviews data) r Hr)
    as [[o Hboth]|Hright].
  - exists (orders_reviews_row (Both o r)).
    split; [by apply list_elem_of_fmap_2|].
    by apply elem_of_merge_outer in Hboth as (_ & _ & Hkey).
  - exists (orders_reviews_row (RightOnly r)).
    split; [by apply list_elem_of_fmap_2|]. done.
Qed.

Lemma matching_table_keeps_left (data : Data) (x : OrdersReviews.row) :
  x ∈ orders_reviews_row
        <$> merge_outer Orders.order_id OrderReviews.order_id
              (orders data) (order_reviews data) →
  ∃ m, m ∈ get_matching_table data
       ∧ MatchingTable.order_id m = OrdersReviews.order_id x
       ∧ MatchingTable.customer_id m = OrdersReviews.customer_id x
       ∧ MatchingTable.review_id m = OrdersReviews.review_id x
       ∧ ((∀ i, i ∈ order_items data →
                OrderItems.order_id i ≠ OrdersReviews.order_id x) →
          MatchingTable.product_id m = None
          ∧ MatchingTable.seller_id m = None).
Proof.
  intros Hx. unfold get_matching_table.
  destruct (merge_outer_keeps_left OrdersReviews.order_id
              OrderItems.order_id _ (order_items data) x Hx)
    as [[i Hboth]|[Hleft Hnone]].
  - exists (matching_row (Both x i)).
    split; [by apply list_elem_of_fmap_2|].
    apply elem_of_merge_outer in Hboth as (_ & Hi & Hkey).
    do 3 (split; [done|]). intros Hnone. by destruct (Hnone i Hi).
  - exists (matching_row (LeftOnly x)).
    split; [by apply list_elem_of_fmap_2|]. done.
Qed.

(** The rows of the first outer merge: an order with a review of it, an
    order without review, a review without order. *)
Lemma elem_of_orders_reviews (data : Data) (x : OrdersReviews.row) :
  x ∈ orders_reviews_row
        <$> merge_outer Orders.order_id OrderReviews.order_id
              (orders data) (order_reviews data)
  ↔ (∃ o r, o ∈ orders data ∧ r ∈ order_reviews data
            ∧ Orders.order_id o = OrderReviews.order_id r
            ∧ x = OrdersReviews.Row (Orders.customer_id o)
                    (Orders.order_id o) (OrderReviews.review_id r))
    ∨ (∃ o, o ∈ orders data
            ∧ (∀ r, r ∈ order_reviews data →
                    OrderReviews.order_id r ≠ Orders.order_id o)
            ∧ x = OrdersReviews.Row (Orders.customer_id o)
                    (Orders.order_id o) None)
    ∨ (∃ r, r ∈ order_reviews data
            ∧ (∀ o, o ∈ orders data →
                    Orders.order_id o ≠ OrderReviews.order_id r)
            ∧ x = OrdersReviews.Row None (OrderReviews.order_id r)
                    (OrderReviews.review_id r)).
Proof.
  rewrite list_elem_of_fmap. split.
  - intros (z & -> & Hz). apply elem_of_merge_outer in Hz.
    destruct z as [o r|o|r]; simpl.
    + destruct Hz as (Ho & Hr & Hkey). left. by exists o, r.
    + destruct Hz as (Ho & Hnone). right. left. exists o.
      split; [done|]. split; [|done]. intros r Hr Hkey. by apply (Hnone r).
    + destruct Hz as (Hr & Hnone). right. right. exists r.
      split; [done|]. split; [|done]. intros o Ho Hkey. by apply (Hnone o).
  - intros [(o & r & Ho & Hr & Hkey & ->)|[(o & Ho & Hnone & ->)
                                          |(r & Hr & Hnone & ->)]].
    + exists (Both o r). split; [done|]. by apply elem_of_merge_outer.
    + exists (LeftOnly o). split; [done|]. apply elem_of_merge_outer.
      split; [done|]. intros r Hr Hkey. by apply (Hnone r).
    + exists (RightOnly r). split; [done|]. apply elem_of_merge_outer.
      split; [done|]. intros o Ho Hkey. by apply (Hnone o).
Qed.

(** The order ids of the first outer merge are those of the orders and of
    the reviews. *)
Lemma orders_reviews_no_key (data : Data) (id : cell string) :
  (∀ x, x ∈ orders_reviews_row
              <$> merge_outer Orders.order_id OrderReviews.order_id
                    (orders data) (order_reviews data) →
        OrdersReviews.order_id x ≠ id)
  ↔ (∀ o, o ∈ orders data → Orders.order_id o ≠ id)
    ∧ (∀ r, r ∈ order_reviews data → OrderReviews.order_id r ≠ id).
Proof.
  split.
  - intros Hnone. split.
    + intros o Ho Hid.
      destruct (orders_reviews_keeps_order data o Ho) as (x & Hx & Hxid & _).
      apply (Hnone x Hx). by rewrite Hxid.
    + intros r Hr Hid.
      destruct (orders_reviews_keeps_review data r Hr) as (x & Hx & Hxid & _).
      apply (Hnone x Hx). by rewrite Hxid.
  - intros [Horders Hreviews] x Hx Hid.
    apply elem_of_orders_reviews in Hx
      as [(o & r & Ho & _ & _ & ->)|[(o & Ho & _ & ->)|(r & Hr & _ & ->)]];
      simpl in Hid.
    + by apply (Horders o).
    + by apply (Horders o).
    + by apply (Hreviews r).
Qed.

(** C7: the matching table is the full outer join of the orders, the reviews
    and the items on [order_id].  Its rows are exactly: an order with a
    review and an item of it, carrying the order's customer, the review's
    [review_id] and the item's [product_id] and [seller_id]; an order with
    a review, or with an item, or alone, when it has no item, or no review,
    or neither, the absent references missing; and the reviews and items of
    no order, likewise.  So every order of the table has a row, with its
    customer, and what the order lacks is missing in it; so has every
    review and every item. *)
Theorem get_matching_table_outer_join (data : Data) :
  (∀ m,
     m ∈ get_matching_table data
     ↔ (∃ o r i,
          o ∈ orders data ∧ r ∈ order_reviews data ∧ i ∈ order_items data
          ∧ OrderReviews.order_id r = Orders.order_id o
          ∧ OrderItems.order_id i = Orders.order_id o
          ∧ m = MatchingTable.Row (Orders.customer_id o) (Orders.order_id o)
                  (OrderReviews.review_id r) (OrderItems.product_id i)
                  (OrderItems.seller_id i))
       ∨ (∃ o r,
            o ∈ orders data ∧ r ∈ order_reviews data
            ∧ OrderReviews.order_id r = Orders.order_id o
            ∧ (∀ i, i ∈ order_items data →
                    OrderItems.order_id i ≠ Orders.order_id o)
            ∧ m = MatchingTable.Row (Orders.customer_id o)
                    (Orders.order_id o) (OrderReviews.review_id r) None None)
       ∨ (∃ o i,
            o ∈ orders data ∧ i ∈ order_items data
            ∧ OrderItems.order_id i = Orders.order_id o
            ∧ (∀ r, r ∈ order_reviews data →
                    OrderReviews.order_id r ≠ Orders.order_id o)
            ∧ m = MatchingTable.Row (Orders.customer_id o)
                    (Orders.order_id o) None (OrderItems.product_id i)
                    (OrderItems.seller_id i))
       ∨ (∃ o,
            o ∈ orders data
            ∧ (∀ r, r ∈ order_reviews data →
                    OrderReviews.order_id r ≠ Orders.order_id o)
            ∧ (∀ i, i ∈ order_items data →
                    OrderItems.order_id i ≠ Orders.order_id o)
            ∧ m = MatchingTable.Row (Orders.customer_id o)
                    (Orders.order_id o) None None None)
       ∨ (∃ r i,
            r ∈ order_reviews data ∧ i ∈ order_items data
            ∧ OrderItems.order_id i = OrderReviews.order_id r
            ∧ (∀ o, o ∈ orders data →
                    Orders.order_id o ≠ OrderReviews.order_id r)
            ∧ m = MatchingTable.Row None (OrderReviews.order_id r)
                    (OrderReviews.review_id r) (OrderItems.product_id i)
                    (OrderItems.seller_id i))
       ∨ (∃ r,
            r ∈ order_reviews data
            ∧ (∀ o, o ∈ orders data →
                    Orders.order_id o ≠ OrderReviews.order_id r)
            ∧ (∀ i, i ∈ order_items data →
                    OrderItems.order_id i ≠ OrderReviews.order_id r)
            ∧ m = MatchingTable.Row None (OrderReviews.order_id r)
                    (OrderReviews.review_id r) None None)
       ∨ (∃ i,
            i ∈ order_items data
            ∧ (∀ o, o ∈ orders data →
                    Orders.order_id o ≠ OrderItems.order_id i)
            ∧ (∀ r, r ∈ order_reviews data →
                    OrderReviews.order_id r ≠ OrderItems.order_id i)
            ∧ m = MatchingTable.Row None (OrderItems.order_id i) None
                    (OrderItems.product_id i) (OrderItems.seller_id i)))
  ∧ (∀ o, o ∈ orders data →
       ∃ m, m ∈ get_matching_table data
            ∧ MatchingTable.order_id m = Orders.order_id o
            ∧ MatchingTable.customer_id m = Orders.customer_id o
            ∧ ((∀ r, r ∈ order_reviews data →
                     OrderReviews.order_id r ≠ Orders.order_id o) →
               MatchingTable.review_id m = None)
            ∧ ((∀ i, i ∈ order_items data →
                     OrderItems.order_id i ≠ Orders.order_id o) →
               MatchingTable.product_id m = None
               ∧ MatchingTable.seller_id m = None))
  ∧ (∀ r, r ∈ order_reviews data →
       ∃ m, m ∈ get_matching_table data
            ∧ MatchingTable.order_id m = OrderReviews.order_id r
            ∧ MatchingTable.review_id m = OrderReviews.review_id r)
  ∧ (∀ i, i ∈ order_items data →
       ∃ m, m ∈ get_matching_table data
            ∧ MatchingTable.order_id m = OrderItems.order_id i
            ∧ MatchingTable.product_id m = OrderItems.product_id i
            ∧ MatchingTable.seller_id m = OrderItems.seller_id i).
Proof.
  split; [|split; [|split]].
  - intros m. unfold get_matching_table. rewrite list_elem_of_fmap. split.
    + intros (y & -> & Hy). apply elem_of_merge_outer in Hy.
      destruct y as [x i|x|i]; simpl.
      * destruct Hy as (Hx & Hi & Hkey).
        apply elem_of_orders_reviews in Hx
          as [(o & r & Ho & Hr & Hor & ->)|[(o & Ho & Hnone & ->)
                                           |(r & Hr & Hnone & ->)]];
          simpl in *.
        -- left. by exists o, r, i.
        -- do 2 right. left. by exists o, i.
        -- do 4 right. left. by exists r, i.
      * destruct Hy as (Hx & Hnoitem).
        apply elem_of_orders_reviews in Hx
          as [(o & r & Ho & Hr & Hor & ->)|[(o & Ho & Hnone & ->)
                                           |(r & Hr & Hnone & ->)]];
          simpl in *.
        -- right. left. exists o, r. do 3 (split; [done|]).
           split; [|done]. intros i Hi Hkey. by apply (Hnoitem i).
        -- do 3 right. left. exists o. do 2 (split; [done|]).
           split; [|done]. intros i Hi Hkey. by apply (Hnoitem i).
        -- do 5 right. left. exists r. do 2 (split; [done|]).
           split; [|done]. intros i Hi Hkey. by apply (Hnoitem i).
      * destruct Hy as (Hi & Hnone).
        apply orders_reviews_no_key in Hnone as [Horders Hreviews].
        do 6 right. by exists i.
    + intros [(o & r & i & Ho & Hr & Hi & Hro & Hio & ->)
             |[(o & r & Ho & Hr & Hro & Hnoitem & ->)
              |[(o & i & Ho & Hi & Hio & Hnoreview & ->)
               |[(o & Ho & Hnoreview & Hnoitem & ->)
                |[(r & i & Hr & Hi & Hir & Hnoorder & ->)
                 |[(r & Hr & Hnoorder & Hnoitem & ->)
                  |(i & Hi & Hnoorder & Hnoreview & ->)]]]]]].
      * exists (Both (OrdersReviews.Row (Orders.customer_id o)
                        (Orders.order_id o) (OrderReviews.review_id r)) i).
        split; [done|]. apply elem_of_merge_outer.
        split; [|by split]. apply elem_of_orders_reviews. left.
        by exists o, r.
      * exists (LeftOnly (OrdersReviews.Row (Orders.customer_id o)
                            (Orders.order_id o) (OrderReviews.review_id r))).
        split; [done|]. apply elem_of_merge_outer. split.
        -- apply elem_of_orders_reviews. left. by exists o, r.
        -- intros i Hi Hkey. by apply (Hnoitem i).
      * exists (Both (OrdersReviews.Row (Orders.customer_id o)
                        (Orders.order_id o) None) i).
        split; [done|]. apply elem_of_merge_outer.
        split; [|by split]. apply elem_of_orders_reviews. right. left.
        by exists o.
      * exists (LeftOnly (OrdersReviews.Row (Orders.customer_id o)
                            (Orders.order_id o) None)).
        split; [done|]. apply elem_of_merge_outer. split.
        -- apply elem_of_orders_reviews. right. left. by exists o.
        -- intros i Hi Hkey. by apply (Hnoitem i).
      * exists (Both (OrdersReviews.Row None (OrderReviews.order_id r)
                        (OrderReviews.review_id r)) i).
        split; [done|]. apply elem_of_merge_outer.
        split; [|by split]. apply elem_of_orders_reviews. right. right.
        by exists r.
      * exists (LeftOnly (OrdersReviews.Row None (OrderReviews.order_id r)
                            (OrderReviews.review_id r))).
        split; [done|]. apply elem_of_merge_outer. split.
        -- apply elem_of_orders_reviews. right. right. by exists r.
        -- intros i Hi Hkey. by apply (Hnoitem i).
      * exists (RightOnly i). split; [done|]. apply elem_of_merge_outer.
        split; [done|]. by apply orders_reviews_no_key.
  - intros o Ho.
    destruct (orders_reviews_keeps_order data o Ho)
      as (x & Hx & Hid & Hcustomer & Hreview).
    destruct (matching_table_keeps_left data x Hx)
      as (m & Hm & Hmid & Hmcustomer & Hmreview & Hitems).
    exists m. split; [done|].
    rewrite Hmid, Hmcustomer, Hmreview, Hid, Hcustomer.
    do 3 (split; [done|]). intros Hnone. apply Hitems. by rewrite Hid.
  - intros r Hr.
    destruct (orders_reviews_keeps_review data r Hr) as (x & Hx & Hid & Hrev).
    destruct (matching_table_keeps_left data x Hx)
      as (m & Hm & Hmid & _ & Hmreview & _).
    exists m. by rewrite Hmid, Hmreview.
  - intros i Hi. unfold get_matching_table.
    destruct (merge_outer_keeps_right OrdersReviews.order_id
                OrderItems.order_id
                (orders_reviews_row
                   <$> merge_outer Orders.order_id OrderReviews.order_id
                         (orders data) (order_reviews data))
                (order_items data) i Hi)
      as [[x Hboth]|Hright].
    + exists (matching_row (Both x i)).
      split; [by apply list_elem_of_fmap_2|].
      by apply elem_of_merge_outer in Hboth as (_ & _ & Hkey).
    + exists (matching_row (RightOnly i)).
      split; [by apply list_elem_of_fmap_2|]. done.
Qed.

Lemma get_matching_table_outer_join_witness :
  Samples.in_transit ∈ orders Samples.shop
  ∧ (∃ m, m ∈ get_matching_table Samples.shop
          ∧ MatchingTable.order_id m = Some "B"%string
          ∧ MatchingTable.customer_id m = Some "c2"%string
          ∧ MatchingTable.review_id m = None
          ∧ MatchingTable.product_id m = None
          ∧ MatchingTable.seller_id m = None)
  ∧ MatchingTable.Row (Some "c1") (Some "A") (Some "r1") (Some "p2")
      (Some "s2") ∈ get_matching_table Samples.shop
  ∧ MatchingTable.Row (Some "c1") (Some "A") None None None
    ∉ get_matching_table Samples.shop.
Proof.
  assert (Samples.in_transit ∈ orders Samples.shop) as Ho by left.
  split; [exact Ho|].
  destruct (get_matching_table_outer_join Samples.shop)
    as (Hrows & Horders & _).
  assert (∀ k : string, k ≠ "B"%string → Some k ≠ Some "B"%string)
    as Hother by congruence.
  split; [|split].
  - destruct (Horders Samples.in_transit Ho)
      as (m & Hm & Hid & Hcustomer & Hreview & Hitems).
    exists m. split; [done|]. split; [done|]. split; [done|].
    split.
    + apply Hreview. intros r Hr. simpl in Hr.
      apply list_elem_of_singleton in Hr as ->. by apply Hother.
    + apply Hitems. intros i Hi. simpl in Hi.
      repeat (apply elem_of_cons in Hi as [->|Hi]; [by apply Hother|]).
      by apply not_elem_of_nil in Hi.
  - apply Hrows. left.
    exists (Orders.Row (Some "A") (Some "c1") (Some "delivered")
              (Some 0) (Some (3 * Samples.day)) (Some (2 * Samples.day))),
      (OrderReviews.Row (Some "r1") (Some "A") (Some 5)),
      (OrderItems.Row (Some "A") (Some 2) (Some "p2") (Some "s2")
         (Some 20%Q) (Some 5%Q)).
    repeat split; simpl; set_solver.
  - intros Hin. apply Hrows in Hin.
    assert (∀ o, o ∈ orders Samples.shop →
              Orders.order_id o = Some "A"%string →
              ∃ r, r ∈ order_reviews Samples.shop
                   ∧ OrderReviews.order_id r = Orders.order_id o) as Hhas.
    { intros o _ ->. eexists. split; [left|done]. }
    destruct Hin
      as [(o & r & i & _ & Hr & _ & _ & _ & Heq)
         |[(o & r & _ & Hr & _ & _ & Heq)
          |[(o & i & _ & Hi & _ & _ & Heq)
           |[(o & Hin & Hnoreview & _ & Heq)
            |[(r & i & _ & _ & _ & _ & Heq)
             |[(r & _ & _ & _ & Heq)
              |(i & _ & _ & _ & Heq)]]]]]];
      try discriminate Heq.
    + simpl in Hr. apply list_elem_of_singleton in Hr as ->.
      discriminate Heq.
    + simpl in Hr. apply list_elem_of_singleton in Hr as ->.
      discriminate Heq.
    + simpl in Hi.
      repeat (apply elem_of_cons in Hi as [->|Hi]; [discriminate Heq|]).
      by apply not_elem_of_nil in Hi.
    + injection Heq as _ Hid.
      destruct (Hhas o Hin (eq_sym Hid)) as (r & Hr & Hkey).
      by apply (Hnoreview r).
Defined.

(** ** The training table *)

Lemma complete_record (row : record) :
  complete row ↔ ∀ name v, (name, v) ∈ row → v ≠ NaN.
Proof.
  unfold complete, cells, record_row. rewrite Forall_forall. split.
  - intros Hall name v Hin ->. by specialize (Hall _ Hin).
  - intros Hall [name v] Hin. simpl.
    destruct v; try done. by destruct (Hall _ _ Hin).
Qed.

(** The rows of the chain of inner merges: one row of each of the five
    frames, all of one [order_id]. *)
Lemma elem_of_training_set (is_delivered : bool) (data : Data)
    (w : WaitTime.row) (r : ReviewScore.row) (p : NumberProducts.row)
    (s : NumberSellers.row) (f : PriceFreight.row) :
  (w, r, p, s, f) ∈ training_set is_delivered data
  ↔ w ∈ get_wait_time is_delivered data
    ∧ r ∈ get_review_score data
    ∧ p ∈ get_number_products data
    ∧ s ∈ get_number_sellers data
    ∧ f ∈ get_price_and_freight data
    ∧ WaitTime.order_id w = ReviewScore.order_id r
    ∧ WaitTime.order_id w = NumberProducts.order_id p
    ∧ WaitTime.order_id w = NumberSellers.order_id s
    ∧ WaitTime.order_id w = PriceFreight.order_id f.
Proof.
  unfold training_set. rewrite !elem_of_merge. simpl. naive_solver.
Qed.

Section TrainingFacts.
Variable haversine_distance : Q → Q → Q → Q → Q.

Lemma elem_of_get_training_data (is_delivered with_distance : bool)
    (data : Data) (row : record) :
  row ∈ get_training_data haversine_distance is_delivered with_distance data
  ↔ ∃ w r p s f,
      (w, r, p, s, f) ∈ training_set is_delivered data
      ∧ (if with_distance
         then ∃ d, d ∈ get_distance_seller_customer haversine_distance data
                   ∧ WaitTime.order_id w = Distance.order_id d
                   ∧ row = cells (w, r, p, s, f, d)
         else row = cells (w, r, p, s, f))
      ∧ ∀ name v, (name, v) ∈ row → v ≠ NaN.
Proof.
  unfold get_training_data. rewrite elem_of_dropna, complete_record.
  destruct with_distance; rewrite list_elem_of_fmap; split.
  - intros (Hcomplete & [[[[[w r] p] s] f] d] & -> & Hin).
    apply elem_of_merge in Hin as (Hin & Hd & Hkey).
    exists w, r, p, s, f. split; [done|]. split; [|done]. by exists d.
  - intros (w & r & p & s & f & Hin & (d & Hd & Hkey & ->) & Hcomplete).
    split; [done|]. exists (w, r, p, s, f, d). split; [done|].
    by apply elem_of_merge.
  - intros (Hcomplete & [[[[w r] p] s] f] & -> & Hin).
    by exists w, r, p, s, f.
  - intros (w & r & p & s & f & Hin & -> & Hcomplete).
    split; [done|]. by exists (w, r, p, s, f).
Qed.

End TrainingFacts.

(** C1: [get_training_data] is [dropna()] of the inner merges on [order_id]
    of the frames of [get_wait_time], [get_review_score],
    [get_number_products], [get_number_sellers] and [get_price_and_freight],
    in that order, then of [get_distance_seller_customer] when asked for; its
    rows are the joined rows without a missing value, and so no row of it
    holds a missing value in any column. *)
Theorem get_training_data_joins_then_drops
    (haversine_distance : Q → Q → Q → Q → Q)
    (is_delivered with_distance : bool) (data : Data) :
  get_training_data haversine_distance is_delivered with_distance data
  = dropna
      (if with_distance
       then cells
              <$> merge (λ r, WaitTime.order_id r.1.1.1.1) Distance.order_id
                    (training_set is_delivered data)
                    (get_distance_seller_customer haversine_distance data)
       else cells <$> training_set is_delivered data)
  ∧ training_set is_delivered data
    = merge (λ r, WaitTime.order_id r.1.1.1) PriceFreight.order_id
        (merge (λ r, WaitTime.order_id r.1.1) NumberSellers.order_id
           (merge (λ r, WaitTime.order_id r.1) NumberProducts.order_id
              (merge WaitTime.order_id ReviewScore.order_id
                 (get_wait_time is_delivered data) (get_review_score data))
              (get_number_products data))
           (get_number_sellers data))
        (get_price_and_freight data)
  ∧ (∀ row,
       row ∈ get_training_data haversine_distance is_delivered with_distance
               data
       ↔ ∃ w r p s f,
           (w ∈ get_wait_time is_delivered data
            ∧ r ∈ get_review_score data
            ∧ p ∈ get_number_products data
            ∧ s ∈ get_number_sellers data
            ∧ f ∈ get_price_and_freight data
            ∧ WaitTime.order_id w = ReviewScore.order_id r
            ∧ WaitTime.order_id w = NumberProducts.order_id p
            ∧ WaitTime.order_id w = NumberSellers.order_id s
            ∧ WaitTime.order_id w = PriceFreight.order_id f)
           ∧ (if with_distance
              then ∃ d, d ∈ get_distance_seller_customer haversine_distance
                              data
                        ∧ WaitTime.order_id w = Distance.order_id d
                        ∧ row = cells (w, r, p, s, f, d)
              else row = cells (w, r, p, s, f))
           ∧ ∀ name v, (name, v) ∈ row → v ≠ NaN)
  ∧ (∀ row name v,
       row ∈ get_training_data haversine_distance is_delivered with_distance
               data →
       (name, v) ∈ row → v ≠ NaN).
Proof.
  split; [done|]. split; [done|]. split.
  - intros row. rewrite elem_of_get_training_data.
    by setoid_rewrite elem_of_training_set.
  - intros row name v Hrow.
    apply elem_of_get_training_data in Hrow
      as (w & r & p & s & f & _ & _ & Hcomplete).
    apply Hcomplete.
Qed.

Lemma get_training_data_joins_then_drops_witness :
  ∃ row,
    row ∈ get_training_data Samples.taxicab true true Samples.shop
    ∧ lookup_column "order_id" row = Some (Str "A")
    ∧ ∀ name v, (name, v) ∈ row → v ≠ NaN.
Proof.
  eexists. split; [vm_compute; left|]. split; [reflexivity|].
  intros name v.
  apply (get_training_data_joins_then_drops Samples.taxicab true true
           Samples.shop).
  vm_compute. left.
Defined.


Lemma lookup_column_elem_of (name : string) (row : record) (v : value) :
  lookup_column name row = Some v → (name, v) ∈ row.
Proof.
  unfold lookup_column. intros Hfind.
  destruct (list_find _ row) as [[i [name' v']]|] eqn:Hi; [|done].
  injection Hfind as ->.
  apply list_find_Some in Hi as (Hi & Hname & _). simpl in Hname. subst.
  by eapply list_elem_of_lookup_2.
Qed.





(** C9, as stated, fails: the order and the review have no [order_id] in
    common, the first inner merge has no row, and [get_training_data] returns
    the empty table.  The methods hold no [raise] statement. *)
Lemma empty_join_returns_empty_table :
  get_wait_time true Samples.strangers ≠ []
  ∧ get_review_score Samples.strangers ≠ []
  ∧ merge WaitTime.order_id ReviewScore.order_id
      (get_wait_time true Samples.strangers)
      (get_review_score Samples.strangers) = []
  ∧ get_training_data Samples.taxicab true false Samples.strangers = []
  ∧ get_training_data Samples.taxicab true true Samples.strangers = [].
Proof. repeat split; (discriminate || reflexivity). Qed.

(** C9, amended: when one of the inner merges of [get_training_data] has no
    row, [get_training_data] returns the empty table; and when one of the
    inner merges of [get_distance_seller_customer] has no row,
    [get_distance_seller_customer] returns the empty table. *)
Theorem get_training_data_empty_join
    (haversine_distance : Q → Q → Q → Q → Q)
    (is_delivered with_distance : bool) (data : Data) :
  let with_reviews :=
    merge WaitTime.order_id ReviewScore.order_id
      (get_wait_time is_delivered data) (get_review_score data) in
  let with_products :=
    merge (λ r, WaitTime.order_id r.1) NumberProducts.order_id
      with_reviews (get_number_products data) in
  let with_sellers :=
    merge (λ r, WaitTime.order_id r.1.1) NumberSellers.order_id
      with_products (get_number_sellers data) in
  let with_prices :=
    merge (λ r, WaitTime.order_id r.1.1.1) PriceFreight.order_id
      with_sellers (get_price_and_freight data) in
  let with_distances :=
    merge (λ r, WaitTime.order_id r.1.1.1.1) Distance.order_id
      with_prices (get_distance_seller_customer haversine_distance data) in
  let with_sellers_geo :=
    merge MatchingTable.seller_id SellersGeo.seller_id
      (get_matching_table data) (sellers_geo data) in
  let with_customers_geo :=
    merge (λ r, MatchingTable.customer_id r.1) CustomersGeo.customer_id
      with_sellers_geo (customers_geo data) in
  (with_reviews = [] ∨ with_products = [] ∨ with_sellers = []
   ∨ with_prices = [] ∨ (with_distance = true ∧ with_distances = []) →
   get_training_data haversine_distance is_delivered with_distance data = [])
  ∧ (with_sellers_geo = [] ∨ with_customers_geo = [] →
     get_distance_seller_customer haversine_distance data = []).
Proof.
  intros with_reviews with_products with_sellers with_prices with_distances
    with_sellers_geo with_customers_geo.
  split.
  - intros Hempty. unfold get_training_data.
    change (training_set is_delivered data) with with_prices.
    fold with_distances.
    assert (with_prices = [] ∨ with_distance = true ∧ with_distances = [])
      as [Hprices|[-> Hdistances]].
    { destruct Hempty as [H|[H|[H|[H|H]]]];
        [left|left|left|by left|by right].
      - unfold with_prices, with_sellers, with_products. by rewrite H.
      - unfold with_prices, with_sellers. by rewrite H.
      - unfold with_prices. by rewrite H. }
    + unfold with_distances. rewrite Hprices. by destruct with_distance.
    + by rewrite Hdistances.
  - intros Hempty. unfold get_distance_seller_customer, matching_geo.
    change (merged_geo data) with with_customers_geo.
    assert (with_customers_geo = []) as ->; [|done].
    destruct Hempty as [H|H]; [|done].
    unfold with_customers_geo. by rewrite H.
Qed.

Lemma get_training_data_empty_join_witness :
  merge WaitTime.order_id ReviewScore.order_id
    (get_wait_time true Samples.crossed) (get_review_score Samples.crossed)
  ≠ []
  ∧ merge (λ r, WaitTime.order_id r.1) NumberProducts.order_id
      (merge WaitTime.order_id ReviewScore.order_id
         (get_wait_time true Samples.crossed)
         (get_review_score Samples.crossed))
      (get_number_products Samples.crossed) = []
  ∧ get_training_data Samples.taxicab true false Samples.crossed = []
  ∧ get_matching_table Samples.crossed ≠ []
  ∧ merge MatchingTable.seller_id SellersGeo.seller_id
      (get_matching_table Samples.crossed) (sellers_geo Samples.crossed) = []
  ∧ get_distance_seller_customer Samples.taxicab Samples.crossed = [].
Proof.
  split; [discriminate|]. split; [reflexivity|].
  destruct (get_training_data_empty_join Samples.taxicab true false
              Samples.crossed) as [Htraining Hdistance].
  split; [apply Htraining; right; left; reflexivity|].
  split; [discriminate|]. split; [reflexivity|].
  apply Hdistance. left. reflexivity.
Defined.

(** ** Distances *)

Lemma elem_of_geo (data : Data) (g : Geolocation.row) :
  g ∈ geo data
  ↔ ∃ z rows,
      (z, rows) ∈ groupby Geolocation.geolocation_zip_code_prefix
                    (geolocation data)
      ∧ g = Geolocation.Row (Some z)
              (first Geolocation.geolocation_lat rows)
              (first Geolocation.geolocation_lng rows).
Proof.
  unfold geo. rewrite list_elem_of_fmap. split.
  - intros ([z rows] & -> & Hin). by exists z, rows.
  - intros (z & rows & Hin & ->). by exists (z, rows).
Qed.

(** One row of [geo] per zip code prefix. *)
Lemma NoDup_geo_prefixes (data : Data) :
  NoDup (Geolocation.geolocation_zip_code_prefix <$> geo data).
Proof.
  unfold geo. rewrite <- list_fmap_compose.
  pose proof (NoDup_groupby_keys Geolocation.geolocation_zip_code_prefix
                (geolocation data)) as Hkeys.
  apply (NoDup_fmap_2 Some) in Hkeys. rewrite <- list_fmap_compose in Hkeys.
  erewrite list_fmap_ext; [exact Hkeys|]. by intros i [z rows] _.
Qed.

Lemma first_of_head {A B} (column : A → cell B) (r : A) (rest : list A) :
  column r ≠ None → first column (r :: rest) = column r.
Proof. unfold first. csimpl. by destruct (column r). Qed.

(** After [dropna()] a row holds its four coordinates, and its distance is
    the distance function on them. *)
Lemma matching_geo_coordinates (haversine_distance : Q → Q → Q → Q → Q)
    (data : Data) (r : MatchingTable.row * SellersGeo.row * CustomersGeo.row) :
  r ∈ matching_geo data →
  r ∈ merged_geo data
  ∧ (∀ name v, (name, v) ∈ matching_geo_cells r → v ≠ NaN)
  ∧ ∃ lng1 lat1 lng2 lat2,
      SellersGeo.geolocation_lng r.1.2 = Some lng1
      ∧ SellersGeo.geolocation_lat r.1.2 = Some lat1
      ∧ CustomersGeo.geolocation_lng r.2 = Some lng2
      ∧ CustomersGeo.geolocation_lat r.2 = Some lat2
      ∧ distance_seller_customer haversine_distance r
        = Some (haversine_distance lng1 lat1 lng2 lat2).
Proof.
  unfold matching_geo. rewrite elem_of_dropna. intros [Hcomplete Hin].
  split; [done|]. split.
  { intros name v. by apply (complete_no_nan (row := matching_geo_cells)). }
  unfold complete, cells in Hcomplete. destruct r as [[m s] c].
  unfold matching_geo_cells in Hcomplete.
  repeat (apply Forall_cons in Hcomplete as [? Hcomplete]).
  unfold distance_seller_customer. simpl in *.
  destruct (SellersGeo.geolocation_lng s) as [lng1|]; [|done].
  destruct (SellersGeo.geolocation_lat s) as [lat1|]; [|done].
  destruct (CustomersGeo.geolocation_lng c) as [lng2|]; [|done].
  destruct (CustomersGeo.geolocation_lat c) as [lat2|]; [|done].
  by exists lng1, lat1, lng2, lat2.
Qed.

Lemma elem_of_get_distance_seller_customer
    (haversine_distance : Q → Q → Q → Q → Q) (data : Data) (d : Distance.row) :
  d ∈ get_distance_seller_customer haversine_distance data
  ↔ ∃ k rows,
      (k, rows) ∈ groupby (λ r, MatchingTable.order_id r.1.1)
                    (matching_geo data)
      ∧ d = Distance.Row (Some k)
              (mean (distance_seller_customer haversine_distance) rows).
Proof.
  unfold get_distance_seller_customer. rewrite list_elem_of_fmap. split.
  - intros ([k rows] & -> & Hin). by exists k, rows.
  - intros (k & rows & Hin & ->). by exists (k, rows).
Qed.

Lemma NoDup_distance_order_ids (haversine_distance : Q → Q → Q → Q → Q)
    (data : Data) :
  NoDup (Distance.order_id
           <$> get_distance_seller_customer haversine_distance data).
Proof.
  unfold get_distance_seller_customer. rewrite <- list_fmap_compose.
  pose proof (NoDup_groupby_keys (λ r, MatchingTable.order_id r.1.1)
                (matching_geo data)) as Hkeys.
  apply (NoDup_fmap_2 Some) in Hkeys. rewrite <- list_fmap_compose in Hkeys.
  erewrite list_fmap_ext; [exact Hkeys|]. by intros i [k rows] _.
Qed.

(** The mean of a column present in every row of a non-empty group. *)
Lemma mean_present {A} (column : A → cell Q) (r : A) (rest : list A) :
  (∀ x, x ∈ r :: rest → column x ≠ None) →
  ∃ xs, Forall2 (λ x q, column x = Some q) (r :: rest) xs
        ∧ mean column (r :: rest)
          = Some (total xs / inject_Z (Z.of_nat (length (r :: rest))))%Q.
Proof.
  intros Hpresent. exists (omap column (r :: rest)).
  assert (Forall2 (λ x q, column x = Some q) (r :: rest)
            (omap column (r :: rest))) as Hall.
  { clear -Hpresent. induction (r :: rest) as [|x l IH]; csimpl; [done|].
    destruct (column x) as [q|] eqn:Hx.
    - constructor; [done|]. apply IH. intros y Hy. apply Hpresent. by right.
    - destruct (Hpresent x); [left|done]. }
  split; [done|]. unfold mean.
  rewrite <- (length_omap_present column (r :: rest) Hpresent).
  destruct (omap column (r :: rest)) as [|q qs] eqn:Hxs; [|done].
  by apply Forall2_nil_inv_r in Hall.
Qed.

(** C3, as stated, fails.  [dropna()] looks at every column: the only row of
    the merged frame holds the four coordinates of its seller and customer
    and no [review_id], and the order gets no distance.  And [first()] takes
    each column's first value that is present: the coordinates kept for the
    prefix are those of no row of the table. *)
Lemma distance_lost_without_missing_coordinates :
  (∃ r, r ∈ merged_geo Samples.unreviewed
        ∧ MatchingTable.order_id r.1.1 = Some "A"%string
        ∧ SellersGeo.geolocation_lng r.1.2 = Some 2%Q
        ∧ SellersGeo.geolocation_lat r.1.2 = Some 1%Q
        ∧ CustomersGeo.geolocation_lng r.2 = Some 8%Q
        ∧ CustomersGeo.geolocation_lat r.2 = Some 7%Q)
  ∧ get_distance_seller_customer Samples.taxicab Samples.unreviewed = []
  ∧ geo Samples.gappy_geolocation
    = [Geolocation.Row (Some 100) (Some 3%Q) (Some 2%Q)]
  ∧ Geolocation.Row (Some 100) (Some 3%Q) (Some 2%Q)
    ∉ geolocation Samples.gappy_geolocation.
Proof.
  split; [|split; [reflexivity|split; [reflexivity|]]].
  - eexists. split; [vm_compute; left|]. repeat split.
  - intros Hin. simpl in Hin.
    repeat (apply elem_of_cons in Hin as [Hin|Hin]; [discriminate|]).
    by apply not_elem_of_nil in Hin.
Qed.

(** C3, amended: [geo] holds one row per zip code prefix of the table, with
    the coordinates of the first row of that prefix when that row has both;
    the merged frame loses every row with a missing value in any column;
    each row left has a distance, the distance function on its four
    coordinates; and the result holds one row per [order_id] left, with the
    sum of the distances of the rows of that order divided by their
    number. *)
Theorem get_distance_seller_customer_mean
    (haversine_distance : Q → Q → Q → Q → Q) (data : Data) :
  NoDup (Geolocation.geolocation_zip_code_prefix <$> geo data)
  ∧ (∀ z, (∃ g, g ∈ geolocation data
                ∧ Geolocation.geolocation_zip_code_prefix g = Some z) →
          ∃ g, g ∈ geo data
               ∧ Geolocation.geolocation_zip_code_prefix g = Some z)
  ∧ (∀ z g rest,
       filter (λ g, Geolocation.geolocation_zip_code_prefix g = Some z)
         (geolocation data) = g :: rest →
       Geolocation.geolocation_lat g ≠ None →
       Geolocation.geolocation_lng g ≠ None →
       Geolocation.Row (Some z) (Geolocation.geolocation_lat g)
         (Geolocation.geolocation_lng g) ∈ geo data)
  ∧ (∀ r, r ∈ matching_geo data ↔
          r ∈ merged_geo data
          ∧ ∀ name v, (name, v) ∈ matching_geo_cells r → v ≠ NaN)
  ∧ (∀ r, r ∈ matching_geo data →
          ∃ lng1 lat1 lng2 lat2,
            SellersGeo.geolocation_lng r.1.2 = Some lng1
            ∧ SellersGeo.geolocation_lat r.1.2 = Some lat1
            ∧ CustomersGeo.geolocation_lng r.2 = Some lng2
            ∧ CustomersGeo.geolocation_lat r.2 = Some lat2
            ∧ distance_seller_customer haversine_distance r
              = Some (haversine_distance lng1 lat1 lng2 lat2))
  ∧ NoDup (Distance.order_id
             <$> get_distance_seller_customer haversine_distance data)
  ∧ (∀ d, d ∈ get_distance_seller_customer haversine_distance data →
          ∃ r, r ∈ matching_geo data
               ∧ MatchingTable.order_id r.1.1 = Distance.order_id d)
  ∧ (∀ k r rest,
       filter (λ r, MatchingTable.order_id r.1.1 = Some k) (matching_geo data)
       = r :: rest →
       ∃ distances,
         Forall2
           (λ x q, distance_seller_customer haversine_distance x = Some q)
           (r :: rest) distances
         ∧ Distance.Row (Some k)
             (Some (total distances
                    / inject_Z (Z.of_nat (length (r :: rest))))%Q)
           ∈ get_distance_seller_customer haversine_distance data).
Proof.
  split; [apply NoDup_geo_prefixes|].
  split.
  { intros z Hz.
    set (rows := filter
                   (λ g, Geolocation.geolocation_zip_code_prefix g = Some z)
                   (geolocation data)).
    exists (Geolocation.Row (Some z)
              (first Geolocation.geolocation_lat rows)
              (first Geolocation.geolocation_lng rows)).
    split; [|done]. apply elem_of_geo. exists z, rows. split; [|done].
    by apply elem_of_groupby. }
  split.
  { intros z g rest Hrows Hlat Hlng. apply elem_of_geo.
    exists z, (g :: rest). split.
    - apply elem_of_groupby. split; [|done].
      assert (g ∈ filter
                (λ g, Geolocation.geolocation_zip_code_prefix g = Some z)
                (geolocation data)) as Hg by (rewrite Hrows; left).
      apply list_elem_of_filter in Hg as [? ?]. by exists g.
    - by rewrite !first_of_head. }
  split.
  { intros r. unfold matching_geo. rewrite elem_of_dropna. split.
    - intros [Hcomplete Hin]. split; [done|]. intros name v.
      by apply (complete_no_nan (row := matching_geo_cells)).
    - intros [Hin Hcomplete]. split; [|done].
      unfold complete, cells. apply Forall_forall. intros [name v] Hcell.
      specialize (Hcomplete _ _ Hcell). by destruct v. }
  split.
  { intros r Hr.
    by destruct (matching_geo_coordinates haversine_distance data r Hr)
      as (_ & _ & Hcoordinates). }
  split; [apply NoDup_distance_order_ids|].
  split.
  { intros d (k & rows & Hrows & ->)%elem_of_get_distance_seller_customer.
    apply elem_of_groupby in Hrows as [(r & Hr & Hk) _]. by exists r. }
  intros k r rest Hrows.
  assert (∀ x, x ∈ r :: rest → x ∈ matching_geo data) as Hsub.
  { intros x Hx. rewrite <- Hrows in Hx.
    by apply list_elem_of_filter in Hx as [_ ?]. }
  destruct (mean_present (distance_seller_customer haversine_distance) r rest)
    as (distances & Hall & Hmean).
  { intros x Hx.
    destruct (matching_geo_coordinates haversine_distance data x (Hsub x Hx))
      as (_ & _ & ? & ? & ? & ? & _ & _ & _ & _ & ->).
    done. }
  exists distances. split; [done|].
  apply elem_of_get_distance_seller_customer. exists k, (r :: rest).
  split; [|by rewrite Hmean].
  apply elem_of_groupby. split; [|done].
  assert (r ∈ filter (λ r, MatchingTable.order_id r.1.1 = Some k)
                (matching_geo data)) as Hr by (rewrite Hrows; left).
  apply list_elem_of_filter in Hr as [? ?]. by exists r.
Qed.

Lemma get_distance_seller_customer_mean_witness :
  (∃ g, g ∈ geo Samples.shop
        ∧ Geolocation.geolocation_zip_code_prefix g = Some 100)
  ∧ Geolocation.Row (Some 100) (Some 1%Q) (Some 2%Q) ∈ geo Samples.shop
  ∧ ∃ r rest distances,
      filter (λ r, MatchingTable.order_id r.1.1 = Some "A"%string)
        (matching_geo Samples.shop) = r :: rest
      ∧ Forall2
          (λ x q, distance_seller_customer Samples.taxicab x = Some q)
          (r :: rest) distances
      ∧ Distance.Row (Some "A"%string)
          (Some (total distances
                 / inject_Z (Z.of_nat (length (r :: rest))))%Q)
        ∈ get_distance_seller_customer Samples.taxicab Samples.shop.
Proof.
  destruct (get_distance_seller_customer_mean Samples.taxicab Samples.shop)
    as (_ & Hprefix & Hfirst & _ & _ & _ & _ & Hmean).
  split; [|split].
  - apply Hprefix. eexists. split; [left|reflexivity].
  - apply (Hfirst 100 (Geolocation.Row (Some 100) (Some 1%Q) (Some 2%Q))
             [Geolocation.Row (Some 100) (Some 3%Q) (Some 4%Q)]);
      [reflexivity|discriminate|discriminate].
  - destruct (filter (λ r, MatchingTable.order_id r.1.1 = Some "A"%string)
                (matching_geo Samples.shop)) as [|r rest] eqn:Hrows;
      [vm_compute in Hrows; discriminate|].
    destruct (Hmean "A"%string r rest Hrows) as (distances & Hall & Hin).
    by exists r, rest, distances.
Defined.

(** A row of the result on the sample: the distances 0 and 12 of the two
    sellers of order A, and their mean. *)
Example shop_distance :
  get_distance_seller_customer Samples.taxicab Samples.shop
  = [Distance.Row (Some "A"%string) (Some (12 # 2)%Q)].
Proof. reflexivity. Qed.

(** * Further properties *)

(** ** Loading a directory *)

Section LoadFacts.
Context {DataFrame : Type} (read_csv : string → outcome DataFrame).
Implicit Types (w : Olist.world) (entries : list (string * string)).

Lemma key_from_file_name_plain (filename : string) w :
  filename ≠ ".DS_Store"%string →
  Olist.key_from_file_name filename w = (Returns (file_key filename), w).
Proof.
  intros Hname. unfold Olist.key_from_file_name, mbind, Olist.M_bind.
  by rewrite decide_False by done.
Qed.

(** In a directory, a name finds the contents listed with it. *)
Lemma file_contents_listed entries file contents :
  NoDup entries.*1 → (file, contents) ∈ entries →
  Olist.file_contents file entries = Some contents.
Proof.
  unfold Olist.file_contents.
  induction entries as [|[f c] entries IH]; intros Hnames Hin.
  { by apply not_elem_of_nil in Hin. }
  apply NoDup_cons in Hnames as [Hfresh Hnames]. simpl.
  apply elem_of_cons in Hin as [[= <- <-]|Hin].
  - by rewrite decide_True by done.
  - rewrite decide_False.
    + rewrite <- IH by done.
      by destruct (list_find _ entries) as [[i e]|].
    + simpl. intros ->. apply Hfresh.
      by apply (list_elem_of_fmap_2 fst) in Hin.
Qed.

Lemma pd_read_csv_listed w entries file contents :
  Olist.csv_dir w = Some entries → NoDup entries.*1 →
  (file, contents) ∈ entries →
  Olist.pd_read_csv DataFrame read_csv file w = (read_csv contents, w).
Proof.
  intros Hdir Hnames Hin. unfold Olist.pd_read_csv. rewrite Hdir. simpl.
  by rewrite (file_contents_listed _ _ _ Hnames Hin).
Qed.

(** The loop over readable files that are not [.DS_Store]: each key is
    assigned in turn, the file system is left alone. *)
Lemma load_readable w entries (listed : list (string * string))
    (frames : list DataFrame) (data : gmap string DataFrame) :
  Olist.csv_dir w = Some entries → NoDup entries.*1 →
  listed ⊆ entries →
  ".DS_Store"%string ∉ listed.*1 →
  Forall2 (λ e df, read_csv e.2 = Returns df) listed frames →
  Olist.load DataFrame read_csv listed.*1 data w
  = (Returns
       (foldl (λ d kv, <[kv.1 := kv.2]> d) data
          (zip (file_key <$> listed.*1) frames)), w).
Proof.
  intros Hdir Hnames Hsub Hstore Hread. revert data Hsub Hstore.
  induction Hread as [|[f c] df listed frames Hdf Hread IH];
    intros data Hsub Hstore; [done|].
  simpl. unfold mbind, Olist.M_bind.
  rewrite (pd_read_csv_listed w entries f c Hdir Hnames)
    by (apply Hsub; left).
  simpl in Hdf. rewrite Hdf.
  rewrite key_from_file_name_plain
    by (intros ->; apply Hstore; left).
  apply IH.
  - intros e He. apply Hsub. by right.
  - intros He. apply Hstore. by right.
Qed.

Lemma load_app (names1 names2 : list string) (data : gmap string DataFrame)
    w :
  Olist.load DataFrame read_csv (names1 ++ names2) data w
  = match Olist.load DataFrame read_csv names1 data w with
    | (Returns data', w') => Olist.load DataFrame read_csv names2 data' w'
    | (Raises e, w') => (Raises e, w')
    end.
Proof.
  revert data w. induction names1 as [|f names1 IH]; intros data w; [done|].
  simpl. unfold mbind, Olist.M_bind.
  destruct (Olist.pd_read_csv _ _ f w) as [[df|e] w1]; [|done].
  destruct (Olist.key_from_file_name f w1) as [[key|e] w2]; [|done].
  apply IH.
Qed.

End LoadFacts.

Lemma dom_foldl_insert {V} (data : gmap string V)
    (kvs : list (string * V)) :
  dom (foldl (λ d kv, <[kv.1 := kv.2]> d) data kvs)
  = dom data ∪ list_to_set kvs.*1.
Proof.
  revert data. induction kvs as [|[k v] kvs IH]; intros data; simpl.
  - set_solver.
  - rewrite IH, dom_insert_L. set_solver.
Qed.

Lemma lookup_foldl_insert_ne {V} (data : gmap string V)
    (kvs : list (string * V)) (k : string) :
  k ∉ kvs.*1 →
  foldl (λ d kv, <[kv.1 := kv.2]> d) data kvs !! k = data !! k.
Proof.
  revert data. induction kvs as [|[k' v] kvs IH]; intros data Hk; [done|].
  simpl. rewrite IH by (intros ?; apply Hk; by right).
  apply lookup_insert_ne. intros ->. apply Hk. left.
Qed.


Lemma lookup_foldl_insert_last {V} (data : gmap string V)
    (kvs : list (string * V)) (i : nat) (k : string) (v : V) :
  kvs !! i = Some (k, v) →
  (∀ j kv, (i < j)%nat → kvs !! j = Some kv → kv.1 ≠ k) →
  foldl (λ d kv, <[kv.1 := kv.2]> d) data kvs !! k = Some v.
Proof.
  revert data i. induction kvs as [|kv0 kvs IH]; intros data i Hi Hlater;
    [done|].
  destruct i as [|i]; simpl in *.
  - injection Hi as ->. simpl.
    rewrite lookup_foldl_insert_ne; [apply lookup_insert_eq|].
    intros (kv & Hk & (j & Hj)%list_elem_of_lookup)%list_elem_of_fmap.
    exact (Hlater (S j) kv ltac:(lia) Hj (eq_sym Hk)).
  - apply (IH _ i Hi). intros j kv Hij Hj.
    exact (Hlater (S j) kv ltac:(lia) Hj).
Qed.

(** X1: when every listed file can be read and none is [.DS_Store],
    [get_data] returns a dictionary and leaves the file system as it was; its
    keys are the keys of the file names; and a file is found under its key
    unless a file listed after it has the same key. *)
Theorem get_data_loads_every_file {DataFrame : Type}
    (read_csv : string → outcome DataFrame) (w : Olist.world)
    (entries : list (string * string)) (frames : list DataFrame) :
  Olist.csv_dir w = Some entries →
  NoDup entries.*1 →
  ".DS_Store"%string ∉ entries.*1 →
  Forall2 (λ e df, read_csv e.2 = Returns df) entries frames →
  ∃ data,
    Olist.get_data DataFrame read_csv w = (Returns data, w)
    ∧ dom data = list_to_set (file_key <$> entries.*1)
    ∧ ∀ i e df,
        entries !! i = Some e → frames !! i = Some df →
        (∀ j e', (i < j)%nat → entries !! j = Some e' →
                 file_key e'.1 ≠ file_key e.1) →
        data !! file_key e.1 = Some df.
Proof.
  intros Hdir Hnames Hstore Hread.
  eexists. split; [|split].
  - unfold Olist.get_data, mbind, Olist.M_bind, Olist.os_listdir.
    rewrite Hdir. by apply (load_readable read_csv w entries entries).
  - rewrite dom_foldl_insert, dom_empty_L.
    rewrite fst_zip; [set_solver|].
    rewrite !length_fmap.
    pose proof (Forall2_length _ _ _ Hread) as Hlength. lia.
  - intros i e df Hi Hdf Hlater.
    apply (lookup_foldl_insert_last _ _ i).
    + rewrite lookup_zip_with, !list_lookup_fmap, Hi, Hdf. done.
    + intros j kv Hij Hj.
      apply lookup_zip_with_Some in Hj as (k & df' & -> & Hk & _).
      rewrite !list_lookup_fmap in Hk.
      destruct (entries !! j) as [e'|] eqn:Hj; [|done].
      injection Hk as <-. by apply (Hlater j e').
Qed.

Lemma get_data_loads_every_file_witness :
  let w :=
    Olist.World
      (Some [("orders.csv", "old");
             ("olist_orders_dataset.csv", "new")]%string)
      Olist.CsvDir in
  ∃ data,
    Olist.get_data string Returns w = (Returns data, w)
    ∧ dom data = {["orders"%string]}
    ∧ data !! "orders"%string = Some "new"%string.
Proof.
  intros w.
  destruct (get_data_loads_every_file Returns w
              [("orders.csv", "old");
               ("olist_orders_dataset.csv", "new")]%string
              ["old"; "new"]%string)
    as (data & Hdata & Hdom & Hlookup).
  - reflexivity.
  - simpl. repeat constructor; set_solver.
  - simpl. set_solver.
  - repeat constructor.
  - exists data. split; [done|]. split.
    + rewrite Hdom. vm_compute file_key. set_solver.
    + apply (Hlookup 1%nat ("olist_orders_dataset.csv", "new")%string);
        [reflexivity|reflexivity|].
      intros j e' Hj He'. destruct j as [|[|j]]; [lia|lia|done].
Defined.

Section LoadFailures.
Context {DataFrame : Type} (read_csv : string → outcome DataFrame).

Lemma pd_read_csv_world (file : string) (w : Olist.world) :
  (Olist.pd_read_csv DataFrame read_csv file w).2 = w.
Proof.
  unfold Olist.pd_read_csv.
  by destruct (Olist.csv_dir w ≫= Olist.file_contents file).
Qed.

Lemma load_keeps_world (names : list string) (data : gmap string DataFrame)
    (w : Olist.world) :
  ".DS_Store"%string ∉ names →
  (Olist.load DataFrame read_csv names data w).2 = w.
Proof.
  revert data. induction names as [|f names IH]; intros data Hstore; [done|].
  simpl. unfold mbind, Olist.M_bind.
  pose proof (pd_read_csv_world f w) as Hw.
  destruct (Olist.pd_read_csv _ _ f w) as [[df|e] w1]; simpl in Hw; subst w1;
    [|done].
  rewrite key_from_file_name_plain by (intros ->; apply Hstore; left).
  apply IH. intros Hin. apply Hstore. by right.
Qed.

Lemma load_ds_store_missing (names : list string)
    (data : gmap string DataFrame) (w : Olist.world) (others : list string) :
  ".DS_Store"%string ∈ names →
  Olist.cwd w = Olist.Elsewhere others →
  ".DS_Store"%string ∉ others →
  ∃ e, Olist.load DataFrame read_csv names data w = (Raises e, w).
Proof.
  intros Hin Hcwd Hothers. revert data.
  induction names as [|f names IH]; intros data.
  { by apply not_elem_of_nil in Hin. }
  simpl. unfold mbind, Olist.M_bind.
  pose proof (pd_read_csv_world f w) as Hw.
  destruct (Olist.pd_read_csv _ _ f w) as [[df|e] w1]; simpl in Hw; subst w1;
    [|by exists e].
  destruct (decide (f = ".DS_Store"%string)) as [->|Hf].
  - exists FileNotFoundError.
    unfold Olist.key_from_file_name, mbind, Olist.M_bind. simpl.
    unfold Olist.os_remove. rewrite Hcwd.
    by rewrite decide_False by done.
  - rewrite key_from_file_name_plain by done.
    apply IH. apply elem_of_cons in Hin as [Hin|Hin]; [|done].
    by destruct Hf.
Qed.

End LoadFailures.

(** X2: when the listed names are distinct and the files listed before an
    unreadable file are readable and none of them is [.DS_Store],
    [get_data] fails with the exception [pd.read_csv] raises at that file;
    no dictionary is returned and the file system is left as it was. *)
Theorem get_data_fails_at_unreadable_file {DataFrame : Type}
    (read_csv : string → outcome DataFrame) (w : Olist.world)
    (before after : list (string * string)) (file contents : string)
    (frames : list DataFrame) (e : exn) :
  Olist.csv_dir w = Some (before ++ (file, contents) :: after) →
  NoDup (before ++ (file, contents) :: after).*1 →
  ".DS_Store"%string ∉ before.*1 →
  Forall2 (λ e df, read_csv e.2 = Returns df) before frames →
  read_csv contents = Raises e →
  Olist.get_data DataFrame read_csv w = (Raises e, w).
Proof.
  intros Hdir Hnames Hstore Hread Hfail.
  unfold Olist.get_data, mbind, Olist.M_bind, Olist.os_listdir.
  rewrite Hdir, fmap_app, load_app.
  rewrite (load_readable read_csv w _ before frames ∅ Hdir Hnames);
    [|set_solver|done|done].
  simpl. unfold mbind, Olist.M_bind.
  rewrite (pd_read_csv_listed read_csv w _ file contents Hdir Hnames)
    by set_solver.
  by rewrite Hfail.
Qed.

Lemma get_data_fails_at_unreadable_file_witness :
  let read_csv := λ contents : string,
    if decide (contents = ""%string)
    then Raises (ReadError "No columns to parse from file")
    else Returns contents in
  let w :=
    Olist.World
      (Some [("sellers.csv", "seller_id"); ("orders.csv", "");
             ("customers.csv", "customer_id")]%string)
      (Olist.Elsewhere []) in
  Olist.get_data string read_csv w
  = (Raises (ReadError "No columns to parse from file"), w).
Proof.
  intros read_csv w.
  apply (get_data_fails_at_unreadable_file read_csv w
           [("sellers.csv", "seller_id")]%string
           [("customers.csv", "customer_id")]%string
           "orders.csv"%string ""%string ["seller_id"%string]).
  - reflexivity.
  - simpl. repeat constructor; set_solver.
  - simpl. set_solver.
  - repeat constructor.
  - reflexivity.
Defined.

(** X3: a [.DS_Store] entry is not skipped.  When the working directory is
    another directory that holds no [.DS_Store], [get_data] fails: at an
    unreadable file before it, at reading it, or at [os.remove]. *)
Theorem get_data_fails_on_ds_store {DataFrame : Type}
    (read_csv : string → outcome DataFrame) (w : Olist.world)
    (entries : list (string * string)) (others : list string) :
  Olist.csv_dir w = Some entries →
  ".DS_Store"%string ∈ entries.*1 →
  Olist.cwd w = Olist.Elsewhere others →
  ".DS_Store"%string ∉ others →
  ∃ e, Olist.get_data DataFrame read_csv w = (Raises e, w).
Proof.
  intros Hdir Hin Hcwd Hothers.
  unfold Olist.get_data, mbind, Olist.M_bind, Olist.os_listdir.
  rewrite Hdir. by apply (load_ds_store_missing read_csv _ _ w others).
Qed.

Lemma get_data_fails_on_ds_store_witness :
  let w :=
    Olist.World
      (Some [("orders.csv", "order_id"); (".DS_Store", "Bud1")]%string)
      (Olist.Elsewhere ["notebook.ipynb"%string]) in
  ∃ e, Olist.get_data string Returns w = (Raises e, w).
Proof.
  intros w.
  apply (get_data_fails_on_ds_store Returns w
           [("orders.csv", "order_id"); (".DS_Store", "Bud1")]%string
           ["notebook.ipynb"%string]).
  - reflexivity.
  - simpl. set_solver.
  - reflexivity.
  - set_solver.
Defined.

(** X4: without a [.DS_Store] entry in the listing, [get_data] changes
    nothing in the file system, whether it returns or fails. *)
Theorem get_data_keeps_file_system {DataFrame : Type}
    (read_csv : string → outcome DataFrame) (w : Olist.world) :
  (∀ entries, Olist.csv_dir w = Some entries →
              ".DS_Store"%string ∉ entries.*1) →
  (Olist.get_data DataFrame read_csv w).2 = w.
Proof.
  intros Hstore.
  unfold Olist.get_data, mbind, Olist.M_bind, Olist.os_listdir.
  destruct (Olist.csv_dir w) as [entries|] eqn:Hdir; [|done].
  apply load_keeps_world. by apply Hstore.
Qed.

Lemma get_data_keeps_file_system_witness :
  let w :=
    Olist.World (Some [("orders.csv", "order_id")]%string)
      (Olist.Elsewhere [".DS_Store"%string]) in
  (Olist.get_data string Returns w).2 = w.
Proof.
  intros w. apply (get_data_keeps_file_system Returns w).
  intros entries [= <-]. simpl. set_solver.
Defined.

Lemma key_from_file_name_ds_store (w : Olist.world) (others : list string) :
  Olist.cwd w = Olist.Elsewhere others →
  ".DS_Store"%string ∈ others →
  Olist.key_from_file_name ".DS_Store" w
  = (Returns ".DS_Store"%string,
     Olist.World (Olist.csv_dir w)
       (Olist.Elsewhere (filter (λ f, f ≠ ".DS_Store"%string) others))).
Proof.
  intros Hcwd Hothers.
  unfold Olist.key_from_file_name, mbind, Olist.M_bind.
  rewrite decide_True by done. unfold Olist.os_remove. rewrite Hcwd.
  by rewrite decide_True by done.
Qed.

(** X5: when the listed names are distinct, every listed file is readable,
    one of them is [.DS_Store], and the working directory, not the data
    directory, holds a [.DS_Store] of its own, [get_data] deletes the one
    of the working directory, leaves the data directory as it was, and
    returns a dictionary with a key [.DS_Store]. *)
Theorem get_data_removes_other_ds_store {DataFrame : Type}
    (read_csv : string → outcome DataFrame) (w : Olist.world)
    (before after : list (string * string)) (contents : string)
    (frames_before frames_after : list DataFrame) (df : DataFrame)
    (others : list string) :
  Olist.csv_dir w = Some (before ++ (".DS_Store", contents) :: after) →
  NoDup (before ++ (".DS_Store", contents) :: after).*1 →
  Olist.cwd w = Olist.Elsewhere others →
  ".DS_Store"%string ∈ others →
  Forall2 (λ e df, read_csv e.2 = Returns df) before frames_before →
  read_csv contents = Returns df →
  Forall2 (λ e df, read_csv e.2 = Returns df) after frames_after →
  ∃ data,
    Olist.get_data DataFrame read_csv w
    = (Returns data,
       Olist.World (Olist.csv_dir w)
         (Olist.Elsewhere (filter (λ f, f ≠ ".DS_Store"%string) others)))
    ∧ ".DS_Store"%string ∈ dom data.
Proof.
  intros Hdir Hnames Hcwd Hothers Hbefore Hdf Hafter.
  assert ((".DS_Store"%string ∉ before.*1)
          ∧ (".DS_Store"%string ∉ after.*1)) as [Hb Ha].
  { rewrite fmap_app in Hnames. apply NoDup_app in Hnames as (_ & Hb & Hn).
    simpl in *. apply NoDup_cons in Hn as [Ha _]. split; [|done].
    intros Hin. apply (Hb _ Hin). left. }
  set (w' := Olist.World (Olist.csv_dir w)
               (Olist.Elsewhere
                  (filter (λ f, f ≠ ".DS_Store"%string) others))).
  eexists. split.
  - unfold Olist.get_data, mbind, Olist.M_bind, Olist.os_listdir.
    rewrite Hdir, fmap_app, load_app.
    rewrite (load_readable read_csv w _ before frames_before ∅ Hdir Hnames);
      [|set_solver|done|done].
    simpl. unfold mbind, Olist.M_bind.
    rewrite (pd_read_csv_listed read_csv w _ _ contents Hdir Hnames)
      by set_solver.
    rewrite Hdf, (key_from_file_name_ds_store w others Hcwd Hothers).
    fold w'.
    rewrite (load_readable read_csv w'
               (before ++ (".DS_Store", contents) :: after) after
               frames_after);
      [|done|done|set_solver|done|done].
    reflexivity.
  - rewrite dom_foldl_insert, dom_insert_L. set_solver.
Qed.

Lemma get_data_removes_other_ds_store_witness :
  let w :=
    Olist.World
      (Some [("orders.csv", "order_id"); (".DS_Store", "Bud1")]%string)
      (Olist.Elsewhere [".DS_Store"; "notebook.ipynb"]%string) in
  ∃ data,
    Olist.get_data string Returns w
    = (Returns data,
       Olist.World
         (Some [("orders.csv", "order_id"); (".DS_Store", "Bud1")]%string)
         (Olist.Elsewhere ["notebook.ipynb"%string]))
    ∧ ".DS_Store"%string ∈ dom data.
Proof.
  intros w.
  apply (get_data_removes_other_ds_store Returns w
           [("orders.csv", "order_id")]%string [] "Bud1"%string
           ["order_id"%string] [] "Bud1"%string
           [".DS_Store"; "notebook.ipynb"]%string).
  - reflexivity.
  - simpl. repeat constructor; set_solver.
  - reflexivity.
  - set_solver.
  - repeat constructor.
  - reflexivity.
  - constructor.
Defined.

(** ** More on get_wait_time *)

Lemma get_wait_time_lookup_row (is_delivered : bool) (data : Data) (i : nat)
    (w : WaitTime.row) :
  get_wait_time is_delivered data !! i = Some w →
  ∃ o, query_delivered is_delivered (orders data) !! i = Some o
       ∧ w = WaitTime.Row (Orders.order_id o)
               (per (minus (Orders.order_delivered_customer_date o)
                       (Orders.order_purchase_timestamp o)) one_day_delta)
               (per (minus (Orders.order_estimated_delivery_date o)
                       (Orders.order_purchase_timestamp o)) one_day_delta)
               (absolute_delay
                  (per (minus (Orders.order_estimated_delivery_date o)
                          (Orders.order_delivered_customer_date o))
                     one_day_delta)).
Proof.
  unfold get_wait_time. rewrite list_lookup_fmap.
  destruct (query_delivered _ _ !! i) as [o|]; [|done].
  intros [= <-]. by exists o.
Qed.

(** X6: row by row, [wait_time] is missing exactly when the purchase or the
    delivery date is, [expected_wait_time] exactly when the purchase or the
    estimated date is; [delay_vs_expected] is never missing, and it is 0
    exactly when the order is not late: a date is missing, or the
    estimated date is not before the delivery date. *)
Theorem wait_time_columns_missing (is_delivered : bool) (data : Data)
    (i : nat) (w : WaitTime.row) :
  get_wait_time is_delivered data !! i = Some w →
  ∃ o, query_delivered is_delivered (orders data) !! i = Some o
    ∧ (WaitTime.wait_time w = None
       ↔ Orders.order_purchase_timestamp o = None
         ∨ Orders.order_delivered_customer_date o = None)
    ∧ (WaitTime.expected_wait_time w = None
       ↔ Orders.order_purchase_timestamp o = None
         ∨ Orders.order_estimated_delivery_date o = None)
    ∧ (∃ delay, WaitTime.delay_vs_expected w = Some delay)
    ∧ (WaitTime.delay_vs_expected w = Some 0%Q
       ↔ ¬ ∃ estimated delivered,
             Orders.order_estimated_delivery_date o = Some estimated
             ∧ Orders.order_delivered_customer_date o = Some delivered
             ∧ estimated < delivered).
Proof.
  intros Hw.
  destruct (get_wait_time_lookup_row _ _ _ _ Hw) as (o & Ho & ->).
  exists o. split; [done|]. simpl.
  split.
  { destruct (Orders.order_purchase_timestamp o),
      (Orders.order_delivered_customer_date o); simpl; naive_solver. }
  split.
  { destruct (Orders.order_purchase_timestamp o),
      (Orders.order_estimated_delivery_date o); simpl; naive_solver. }
  split.
  { destruct (absolute_delay_nonneg
                (per (minus (Orders.order_estimated_delivery_date o)
                        (Orders.order_delivered_customer_date o))
                   one_day_delta)) as (delay & Hdelay & _).
    by exists delay. }
  destruct (Orders.order_estimated_delivery_date o) as [estimated|];
    [|split; [intros _ (? & ? & [=] & _)|done]].
  destruct (Orders.order_delivered_customer_date o) as [delivered|];
    [|split; [intros _ (? & ? & _ & [=] & _)|done]].
  simpl.
  set (d := (inject_Z (estimated - delivered) / inject_Z one_day_delta)%Q).
  pose proof (days_negative (estimated - delivered)) as Hsign.
  fold d in Hsign. clearbody d.
  unfold absolute_delay. destruct (negative (Some d)) eqn:Hneg; simpl.
  - apply negative_spec in Hneg. pose proof (proj1 Hsign Hneg) as Hlate.
    split.
    + intros [= Hzero]. exfalso.
      assert (Qabs d == - d)%Q as Habs
        by (apply Qabs_neg; by apply Qlt_le_weak).
      rewrite Hzero in Habs.
      apply (Qlt_irrefl 0). rewrite Habs at 2.
      by apply (Qopp_lt_compat d 0).
    + intros Hnot. destruct Hnot. exists estimated, delivered.
      split; [done|]. split; [done|]. lia.
  - split; [|done]. intros _ (e & dl & [= <-] & [= <-] & Hlate).
    assert (d < 0)%Q as Hd by (apply Hsign; lia).
    apply negative_spec in Hd. congruence.
Qed.

Lemma wait_time_columns_missing_witness :
  get_wait_time false Samples.shop !! 0%nat
  = Some (WaitTime.Row (Some "B"%string) None
            (Some (inject_Z (5 * Samples.day) / inject_Z Samples.day)%Q)
            (Some 0%Q))
  ∧ Orders.order_delivered_customer_date Samples.in_transit = None
  ∧ ∃ o, query_delivered false (orders Samples.shop) !! 0%nat = Some o
         ∧ Orders.order_purchase_timestamp o = Some 0.
Proof.
  split; [reflexivity|]. split; [reflexivity|].
  destruct (wait_time_columns_missing false Samples.shop 0 _ eq_refl)
    as (o & Ho & _).
  exists o. split; [done|]. by injection Ho as <-.
Defined.

Lemma filter_zip_fmap {A B} (P : A → Prop) `{!∀ x, Decision (P x)}
    (Q : A * B → Prop) `{!∀ ab, Decision (Q ab)} (f : A → B) (l : list A) :
  (∀ ab, Q ab ↔ P ab.1) →
  snd <$> filter Q (zip l (f <$> l)) = f <$> filter P l.
Proof.
  intros HQ. induction l as [|x l IH]; [done|]. csimpl.
  destruct (decide (P x)) as [Hx|Hx].
  - rewrite (filter_cons_True Q) by by apply HQ.
    rewrite (filter_cons_True P) by done. csimpl. by rewrite IH.
  - rewrite (filter_cons_False Q) by (by rewrite HQ).
    by rewrite (filter_cons_False P) by done.
Qed.

(** X7: the frame of the delivered orders is the frame of all orders with
    the rows of the orders whose status is not "delivered" left out: the
    rows that stand, in the frame of all orders, at the places of the
    delivered orders, in the same order. *)
Theorem get_wait_time_delivered_sublist (data : Data) :
  get_wait_time true data
  = snd <$> filter
              (λ ow, Orders.order_status ow.1 = Some "delivered"%string)
              (zip (orders data) (get_wait_time false data))
  ∧ length (get_wait_time false data) = length (orders data)
  ∧ get_wait_time true data `sublist_of` get_wait_time false data.
Proof.
  split; [|split].
  - unfold get_wait_time, query_delivered. cbv zeta. symmetry.
    by apply filter_zip_fmap.
  - unfold get_wait_time, query_delivered. by rewrite length_fmap.
  - unfold get_wait_time, query_delivered.
    apply fmap_sublist, sublist_filter.
Qed.

(** ** More on the review scores and the aggregated frames *)

(** X8: [get_review_score] has one row per review, in the order of the
    table, with the review's [order_id] and score; [dim_is_five_star] is 1
    when the score is 5 and 0 otherwise (also when the score is missing),
    [dim_is_one_star] likewise for 1, and the two are never both 1. *)
Theorem get_review_score_rows (data : Data) :
  Forall2
    (λ review r,
       ReviewScore.order_id r = OrderReviews.order_id review
       ∧ ReviewScore.review_score r = OrderReviews.review_score review
       ∧ (ReviewScore.dim_is_five_star r = 1
          ∧ OrderReviews.review_score review = Some 5
          ∨ ReviewScore.dim_is_five_star r = 0
            ∧ OrderReviews.review_score review ≠ Some 5)
       ∧ (ReviewScore.dim_is_one_star r = 1
          ∧ OrderReviews.review_score review = Some 1
          ∨ ReviewScore.dim_is_one_star r = 0
            ∧ OrderReviews.review_score review ≠ Some 1)
       ∧ ReviewScore.dim_is_five_star r + ReviewScore.dim_is_one_star r ≤ 1)
    (order_reviews data) (get_review_score data).
Proof.
  unfold get_review_score. apply Forall2_fmap_r.
  induction (order_reviews data) as [|review reviews IH]; constructor;
    [|done].
  simpl. unfold dim_five_star, dim_one_star.
  repeat case_decide; repeat split; auto; try lia; congruence.
Qed.

Lemma fmap_sort_values_Permutation {A B} (f : A → B) (column : A → Z)
    (df : list A) :
  f <$> sort_values column df ≡ₚ f <$> df.
Proof. by rewrite sort_values_Permutation. Qed.

Lemma number_products_keys (data : Data) :
  NumberProducts.order_id <$> get_number_products data
  ≡ₚ Some <$> (groupby OrderItems.order_id (order_items data)).*1.
Proof.
  unfold get_number_products. rewrite fmap_sort_values_Permutation.
  rewrite <- !list_fmap_compose.
  erewrite list_fmap_ext; [done|]. by intros i [k g] _.
Qed.

Lemma number_sellers_keys (data : Data) :
  NumberSellers.order_id <$> get_number_sellers data
  ≡ₚ Some <$> (groupby OrderItems.order_id (order_items data)).*1.
Proof.
  unfold get_number_sellers. rewrite fmap_sort_values_Permutation.
  rewrite <- !list_fmap_compose.
  erewrite list_fmap_ext; [done|]. by intros i [k g] _.
Qed.

Lemma price_and_freight_keys (data : Data) :
  PriceFreight.order_id <$> get_price_and_freight data
  = Some <$> (groupby OrderItems.order_id (order_items data)).*1.
Proof.
  unfold get_price_and_freight. rewrite <- !list_fmap_compose.
  apply list_fmap_ext. by intros i [k g] _.
Qed.

Lemma NoDup_Some_groupby_keys {A K} `{EqDecision K, Ord K}
    (key : A → cell K) (df : list A) :
  NoDup (Some <$> (groupby key df).*1).
Proof. apply (NoDup_fmap_2 Some), NoDup_groupby_keys. Qed.

Lemma elem_of_groupby_keys {A K} `{EqDecision K, Ord K}
    (key : A → cell K) (df : list A) (k : K) :
  k ∈ (groupby key df).*1 ↔ ∃ r, r ∈ df ∧ key r = Some k.
Proof.
  rewrite list_elem_of_fmap. split.
  - intros ([k' g] & -> & Hin). by apply elem_of_groupby in Hin as [? _].
  - intros Hr. exists (k, filter (λ r, key r = Some k) df).
    split; [done|]. by apply elem_of_groupby.
Qed.

Lemma aggregated_frames_keys_NoDup (data : Data) :
  NoDup (NumberProducts.order_id <$> get_number_products data)
  ∧ NoDup (NumberSellers.order_id <$> get_number_sellers data)
  ∧ NoDup (PriceFreight.order_id <$> get_price_and_freight data).
Proof.
  rewrite number_products_keys, number_sellers_keys, price_and_freight_keys.
  repeat split; apply NoDup_Some_groupby_keys.
Qed.

(** X9: [get_number_products], [get_number_sellers] and
    [get_price_and_freight] each hold exactly one row per [order_id] of the
    items table, none for a missing [order_id], and so the same orders. *)
Theorem aggregated_frames_one_row_per_order (data : Data) :
  NoDup (NumberProducts.order_id <$> get_number_products data)
  ∧ NoDup (NumberSellers.order_id <$> get_number_sellers data)
  ∧ NoDup (PriceFreight.order_id <$> get_price_and_freight data)
  ∧ NumberSellers.order_id <$> get_number_sellers data
    ≡ₚ NumberProducts.order_id <$> get_number_products data
  ∧ PriceFreight.order_id <$> get_price_and_freight data
    ≡ₚ NumberProducts.order_id <$> get_number_products data
  ∧ ∀ id, id ∈ NumberProducts.order_id <$> get_number_products data
          ↔ ∃ k r, id = Some k ∧ r ∈ order_items data
                   ∧ OrderItems.order_id r = Some k.
Proof.
  rewrite number_products_keys, number_sellers_keys, price_and_freight_keys.
  split; [apply NoDup_Some_groupby_keys|].
  split; [apply NoDup_Some_groupby_keys|].
  split; [apply NoDup_Some_groupby_keys|].
  split; [done|]. split; [done|].
  intros id. rewrite number_products_keys, list_elem_of_fmap.
  setoid_rewrite elem_of_groupby_keys. naive_solver.
Qed.

Lemma insert_ascending_sorted {A} (column : A → Z) (x : A) (l : list A) :
  StronglySorted (ascending column) l →
  StronglySorted (ascending column) (insert_ascending column x l).
Proof.
  induction 1 as [|y l Hl IH Hy]; simpl; [by repeat constructor|].
  case_decide as Hxy.
  - constructor; [by constructor|]. constructor; [done|].
    eapply Forall_impl; [exact Hy|]. unfold ascending in *. intros z. lia.
  - constructor; [done|].
    rewrite insert_ascending_Permutation. constructor; [|done].
    unfold ascending in *. lia.
Qed.

Lemma sort_values_sorted {A} (column : A → Z) (df : list A) :
  StronglySorted (ascending column) (sort_values column df).
Proof.
  unfold sort_values. induction df as [|x df IH]; simpl; [constructor|].
  by apply insert_ascending_sorted.
Qed.

(** X10: the rows of [get_number_products] come in ascending order of
    [number_of_products], those of [get_number_sellers] in ascending order
    of [number_of_sellers]. *)
Theorem counts_sorted_ascending (data : Data) :
  StronglySorted
    (λ x y, NumberProducts.number_of_products x
            ≤ NumberProducts.number_of_products y)
    (get_number_products data)
  ∧ StronglySorted
      (λ x y, NumberSellers.number_of_sellers x
              ≤ NumberSellers.number_of_sellers y)
      (get_number_sellers data).
Proof.
  split.
  - apply (sort_values_sorted NumberProducts.number_of_products).
  - apply (sort_values_sorted NumberSellers.number_of_sellers).
Qed.

(** X11: for an order with item rows, the two counts lie between 0 and the
    number of those rows, and [number_of_sellers] is at least 1 exactly when
    one of the rows names a seller. *)
Theorem counts_within_item_rows (data : Data) (k : string) :
  let rows :=
    filter (λ r, OrderItems.order_id r = Some k) (order_items data) in
  rows ≠ [] →
  ∃ n_products n_sellers,
    NumberProducts.Row (Some k) n_products ∈ get_number_products data
    ∧ NumberSellers.Row (Some k) n_sellers ∈ get_number_sellers data
    ∧ 0 ≤ n_products ≤ Z.of_nat (length rows)
    ∧ 0 ≤ n_sellers ≤ Z.of_nat (length rows)
    ∧ (1 ≤ n_sellers ↔ ∃ r, r ∈ rows ∧ OrderItems.seller_id r ≠ None).
Proof.
  intros rows Hrows.
  assert ((k, rows) ∈ groupby OrderItems.order_id (order_items data)) as Hg.
  { apply elem_of_groupby. split; [|done].
    destruct rows as [|r rest] eqn:Hr; [done|].
    assert (r ∈ rows) as Hin by (rewrite Hr; left).
    apply list_elem_of_filter in Hin as [? ?]. by exists r. }
  exists (count OrderItems.order_item_id rows),
    (nunique OrderItems.seller_id rows).
  split; [apply elem_of_get_number_products; by exists k, rows|].
  split; [apply elem_of_get_number_sellers; by exists k, rows|].
  unfold count, nunique.
  pose proof (length_omap_le OrderItems.order_item_id rows).
  pose proof (length_omap_le OrderItems.seller_id rows).
  pose proof (length_remove_dups_le (omap OrderItems.seller_id rows)).
  split; [lia|]. split; [lia|]. split.
  - intros Hone.
    destruct (remove_dups (omap OrderItems.seller_id rows)) as [|s rest]
      eqn:Hs; [simpl in Hone; lia|].
    assert (s ∈ omap OrderItems.seller_id rows) as Hin.
    { apply elem_of_remove_dups. rewrite Hs. left. }
    apply list_elem_of_omap in Hin as (r & Hr & Hseller).
    exists r. split; [done|]. by rewrite Hseller.
  - intros (r & Hr & Hseller).
    destruct (OrderItems.seller_id r) as [s|] eqn:Hs; [|done].
    assert (s ∈ remove_dups (omap OrderItems.seller_id rows)) as Hin.
    { apply elem_of_remove_dups, list_elem_of_omap. by exists r. }
    destruct (remove_dups (omap OrderItems.seller_id rows));
      [by apply not_elem_of_nil in Hin|simpl; lia].
Qed.

Lemma counts_within_item_rows_witness :
  filter (λ r, OrderItems.order_id r = Some "A"%string)
    (order_items Samples.unnumbered_items) ≠ []
  ∧ ∃ n_products n_sellers,
      NumberProducts.Row (Some "A"%string) n_products
        ∈ get_number_products Samples.unnumbered_items
      ∧ NumberSellers.Row (Some "A"%string) n_sellers
        ∈ get_number_sellers Samples.unnumbered_items
      ∧ 0 ≤ n_products ≤ 2
      ∧ 0 ≤ n_sellers ≤ 2.
Proof.
  split; [discriminate|].
  destruct (counts_within_item_rows Samples.unnumbered_items "A"%string)
    as (p & s & Hp & Hs & Hpn & Hsn & _); [discriminate|].
  by exists p, s.
Defined.

(** [groupby] splits the rows that have a key: the groups, put end to end,
    are those rows in another order. *)
Lemma groups_partition {A K} `{EqDecision K} (key : A → cell K)
    (df : list A) (keys : list K) :
  NoDup keys →
  (∀ r k, r ∈ df → key r = Some k → k ∈ keys) →
  keys ≫= (λ k, filter (λ r, key r = Some k) df)
  ≡ₚ filter (λ r, is_Some (key r)) df.
Proof.
  intros Hkeys. induction df as [|x df IH]; intros Hcover.
  { clear. induction keys as [|k keys IHk]; [done|]. csimpl.
    by rewrite IHk. }
  assert (keys ≫= (λ k, filter (λ r, key r = Some k) df)
          ≡ₚ filter (λ r, is_Some (key r)) df) as IH'.
  { apply IH. intros r k Hr. apply Hcover. by right. }
  destruct (key x) as [kx|] eqn:Hx.
  - rewrite (filter_cons_True (λ r, is_Some (key r))) by by rewrite Hx.
    rewrite <- IH'.
    assert (kx ∈ keys) as Hin by (apply (Hcover x); [left|done]).
    apply list_elem_of_split in Hin as (before & after & ->).
    apply NoDup_app in Hkeys as (_ & Hb & Hn).
    apply NoDup_cons in Hn as [Ha _].
    assert (∀ l : list K, kx ∉ l →
              l ≫= (λ k, filter (λ r, key r = Some k) (x :: df))
              = l ≫= (λ k, filter (λ r, key r = Some k) df)) as Hother.
    { intros l Hl. induction l as [|k l IHl]; [done|]. csimpl.
      rewrite IHl by (intros ?; apply Hl; by right).
      rewrite filter_cons_False; [done|].
      rewrite Hx. intros [= ->]. apply Hl. left. }
    rewrite !bind_app. csimpl.
    rewrite (Hother before), (Hother after);
      [|done|intros Hin; apply (Hb kx Hin); left].
    rewrite (filter_cons_True (λ r, key r = Some kx)) by done.
    simpl. by rewrite <- Permutation_middle.
  - rewrite (filter_cons_False (λ r, is_Some (key r)))
      by (rewrite Hx; by intros [? ?]).
    rewrite <- IH'.
    assert (∀ l : list K,
              l ≫= (λ k, filter (λ r, key r = Some k) (x :: df))
              = l ≫= (λ k, filter (λ r, key r = Some k) df)) as Hnone.
    { intros l. induction l as [|k l IHl]; [done|]. csimpl.
      rewrite IHl. rewrite filter_cons_False; [done|]. by rewrite Hx. }
    by rewrite Hnone.
Qed.

Lemma omap_bind {A B C} (f : B → option C) (g : A → list B) (l : list A) :
  omap f (l ≫= g) = l ≫= (λ x, omap f (g x)).
Proof.
  induction l as [|x l IH]; [done|]. csimpl. by rewrite omap_app, IH.
Qed.

Lemma groupby_keys_cover {A K} `{EqDecision K, Ord K} (key : A → cell K)
    (df : list A) :
  NoDup (groupby key df).*1
  ∧ ∀ r k, r ∈ df → key r = Some k → k ∈ (groupby key df).*1.
Proof.
  split; [apply NoDup_groupby_keys|].
  intros r k Hr Hk. apply elem_of_groupby_keys. by exists r.
Qed.

Lemma groupby_eq_keys {A K} `{EqDecision K, Ord K} (key : A → cell K)
    (df : list A) :
  groupby key df
  = (λ k, (k, filter (λ r, key r = Some k) df)) <$> (groupby key df).*1.
Proof.
  unfold groupby. rewrite <- !list_fmap_compose.
  apply list_fmap_ext. by intros i k _.
Qed.

(** The present values of a column, group after group, are the present
    values of the column in the rows that have a key, in another order. *)
Lemma groupby_column_partition {A K B} `{EqDecision K, Ord K}
    (key : A → cell K) (column : A → cell B) (df : list A) :
  groupby key df ≫= (λ kg, omap column kg.2)
  ≡ₚ omap column (filter (λ r, is_Some (key r)) df).
Proof.
  destruct (groupby_keys_cover key df) as [Hkeys Hcover].
  rewrite <- (groups_partition key df _ Hkeys Hcover), omap_bind.
  rewrite (groupby_eq_keys key df) at 1.
  generalize ((groupby key df).*1). intros keys.
  induction keys as [|k keys IH]; [done|]. csimpl. by rewrite IH.
Qed.

Lemma add_up_Permutation (l1 l2 : list Z) :
  l1 ≡ₚ l2 → add_up l1 = add_up l2.
Proof. unfold add_up. induction 1; simpl; lia. Qed.

Lemma add_up_counts {A K B} (column : A → cell B) (groups : list (K * list A)) :
  add_up ((λ kg, count column kg.2) <$> groups)
  = Z.of_nat (length (groups ≫= (λ kg, omap column kg.2))).
Proof.
  unfold add_up, count. induction groups as [|[k g] groups IH]; [done|].
  csimpl. rewrite IH, length_app. lia.
Qed.

(** X12: no item row is lost or counted twice by the grouping: the
    [number_of_products] of all orders add up to the number of
    [order_item_id] present in the item rows that have an [order_id]. *)
Theorem number_of_products_add_up (data : Data) :
  let items :=
    filter (λ r, is_Some (OrderItems.order_id r)) (order_items data) in
  add_up (NumberProducts.number_of_products <$> get_number_products data)
  = Z.of_nat (length (omap OrderItems.order_item_id items)).
Proof.
  intros items. unfold get_number_products.
  rewrite (add_up_Permutation _ _ (fmap_sort_values_Permutation _ _ _)).
  rewrite <- list_fmap_compose.
  erewrite (list_fmap_ext _ (λ kg, count OrderItems.order_item_id kg.2));
    [|by intros i [k g] _].
  rewrite add_up_counts. f_equal. apply Permutation_length.
  apply groupby_column_partition.
Qed.

(** ** More on the distances *)

Lemma first_provenance {A B} (column : A → cell B) (g : list A) :
  (∀ v, first column g = Some v → ∃ r, r ∈ g ∧ column r = Some v)
  ∧ (first column g = None → ∀ r, r ∈ g → column r = None).
Proof.
  unfold first. split.
  - intros v Hv%head_Some_elem_of. by apply list_elem_of_omap in Hv.
  - intros Hnone%head_None r Hr.
    destruct (column r) as [v|] eqn:Hv; [|done].
    assert (v ∈ omap column g) as Hin by (apply list_elem_of_omap; eauto).
    rewrite Hnone in Hin. by apply not_elem_of_nil in Hin.
Qed.

(** X13: a row of [geo] carries a zip code prefix that some row of the
    geolocation table carries; its latitude is the latitude of a row of
    that prefix, and is missing only when every row of that prefix lacks
    one; likewise its longitude. *)
Theorem geo_coordinates_from_table (data : Data) (g : Geolocation.row) :
  g ∈ geo data →
  ∃ z,
    Geolocation.geolocation_zip_code_prefix g = Some z
    ∧ (∃ r, r ∈ geolocation data
            ∧ Geolocation.geolocation_zip_code_prefix r = Some z)
    ∧ (∀ lat, Geolocation.geolocation_lat g = Some lat →
         ∃ r, r ∈ geolocation data
              ∧ Geolocation.geolocation_zip_code_prefix r = Some z
              ∧ Geolocation.geolocation_lat r = Some lat)
    ∧ (Geolocation.geolocation_lat g = None →
         ∀ r, r ∈ geolocation data →
              Geolocation.geolocation_zip_code_prefix r = Some z →
              Geolocation.geolocation_lat r = None)
    ∧ (∀ lng, Geolocation.geolocation_lng g = Some lng →
         ∃ r, r ∈ geolocation data
              ∧ Geolocation.geolocation_zip_code_prefix r = Some z
              ∧ Geolocation.geolocation_lng r = Some lng)
    ∧ (Geolocation.geolocation_lng g = None →
         ∀ r, r ∈ geolocation data →
              Geolocation.geolocation_zip_code_prefix r = Some z →
              Geolocation.geolocation_lng r = None).
Proof.
  intros (z & rows & Hrows & ->)%elem_of_geo.
  apply elem_of_groupby in Hrows as [Hprefix ->].
  exists z. split; [done|]. split; [exact Hprefix|]. simpl.
  destruct (first_provenance Geolocation.geolocation_lat
              (filter (λ r, Geolocation.geolocation_zip_code_prefix r = Some z)
                 (geolocation data))) as [Hlat Hnolat].
  destruct (first_provenance Geolocation.geolocation_lng
              (filter (λ r, Geolocation.geolocation_zip_code_prefix r = Some z)
                 (geolocation data))) as [Hlng Hnolng].
  split; [|split; [|split]].
  - intros lat (r & [? ?]%list_elem_of_filter & ?)%Hlat. by exists r.
  - intros Hnone r Hr Hz. apply (Hnolat Hnone).
    by apply list_elem_of_filter.
  - intros lng (r & [? ?]%list_elem_of_filter & ?)%Hlng. by exists r.
  - intros Hnone r Hr Hz. apply (Hnolng Hnone).
    by apply list_elem_of_filter.
Qed.

Lemma geo_coordinates_from_table_witness :
  Geolocation.Row (Some 100) (Some 3%Q) (Some 2%Q)
    ∈ geo Samples.gappy_geolocation
  ∧ (∃ r, r ∈ geolocation Samples.gappy_geolocation
          ∧ Geolocation.geolocation_zip_code_prefix r = Some 100)
  ∧ (∃ r, r ∈ geolocation Samples.gappy_geolocation
          ∧ Geolocation.geolocation_lat r = Some 3%Q)
  ∧ (∃ r, r ∈ geolocation Samples.gappy_geolocation
          ∧ Geolocation.geolocation_lng r = Some 2%Q).
Proof.
  assert (Geolocation.Row (Some 100) (Some 3%Q) (Some 2%Q)
            ∈ geo Samples.gappy_geolocation) as Hin by (vm_compute; left).
  split; [exact Hin|].
  destruct (geo_coordinates_from_table _ _ Hin)
    as (z & [= <-] & Hprefix & Hlat & _ & Hlng & _).
  split; [exact Hprefix|]. split.
  - destruct (Hlat _ eq_refl) as (r & Hr & _ & Hv). by exists r.
  - destruct (Hlng _ eq_refl) as (r & Hr & _ & Hv). by exists r.
Defined.

Section LeftMergeFacts.
Context {A B K : Type} `{EqDecision K, Ord K}.
Variable left_on : A → cell K.
Variable right_on : B → cell K.

(** Against a frame with one row per key, a row has at most one match. *)
Lemma matching_unique (a : A) (right : list B) :
  NoDup (right_on <$> right) →
  matching left_on right_on a right = []
  ∨ ∃ b, matching left_on right_on a right = [b].
Proof.
  unfold matching. induction right as [|b right IH]; intros Hkeys.
  { by left. }
  csimpl in Hkeys. apply NoDup_cons in Hkeys as [Hfresh Hkeys].
  destruct (decide (left_on a = right_on b)) as [Hkey|Hkey].
  - right. exists b. rewrite filter_cons_True by done. f_equal.
    destruct (filter (λ b, left_on a = right_on b) right) as [|b' rest]
      eqn:Hrest; [done|].
    assert (b' ∈ filter (λ b, left_on a = right_on b) right) as Hin
      by (rewrite Hrest; left).
    apply list_elem_of_filter in Hin as [Hkey' Hin].
    destruct Hfresh. rewrite <- Hkey, Hkey'. by apply list_elem_of_fmap_2.
  - rewrite filter_cons_False by done. by apply IH.
Qed.

(** The left merge with a frame with one row per key keeps the left rows
    as they are, one row for one. *)
Lemma merge_left_unique_right (left : list A) (right : list B) :
  NoDup (right_on <$> right) →
  Forall2
    (λ a ab,
       ab.1 = a
       ∧ match ab.2 with
         | Some b => b ∈ right ∧ left_on a = right_on b
         | None => ∀ b, b ∈ right → left_on a ≠ right_on b
         end)
    left (merge_left left_on right_on left right).
Proof.
  intros Hkeys. unfold merge_left.
  induction left as [|a left IH]; [constructor|]. rewrite bind_cons.
  destruct (matching_unique a right Hkeys) as [Hnone|[b Hone]].
  - rewrite Hnone. simpl. constructor; [|done]. split; [done|]. simpl.
    intros b Hb Hkey.
    assert (b ∈ matching left_on right_on a right) as Hin
      by by apply elem_of_matching.
    rewrite Hnone in Hin. by apply not_elem_of_nil in Hin.
  - rewrite Hone. simpl. constructor; [|done]. split; [done|]. simpl.
    assert (b ∈ matching left_on right_on a right) as Hin
      by (rewrite Hone; left).
    by apply elem_of_matching in Hin as [? ?].
Qed.

End LeftMergeFacts.

(** X14: [sellers_geo] has one row per seller, in the order of the table,
    with the seller's own columns; its coordinates are those kept in [geo]
    for the seller's zip code prefix, and are missing when [geo] has no row
    for that prefix.  Likewise [customers_geo] for the customers. *)
Theorem geocoded_frames_one_row_each (data : Data) :
  Forall2
    (λ s sg,
       SellersGeo.seller_id sg = Sellers.seller_id s
       ∧ SellersGeo.seller_zip_code_prefix sg
         = Sellers.seller_zip_code_prefix s
       ∧ SellersGeo.seller_city sg = Sellers.seller_city s
       ∧ SellersGeo.seller_state sg = Sellers.seller_state s
       ∧ ((∃ g, g ∈ geo data
                ∧ Geolocation.geolocation_zip_code_prefix g
                  = Sellers.seller_zip_code_prefix s
                ∧ SellersGeo.geolocation_lat sg = Geolocation.geolocation_lat g
                ∧ SellersGeo.geolocation_lng sg
                  = Geolocation.geolocation_lng g)
          ∨ ((∀ g, g ∈ geo data →
                   Geolocation.geolocation_zip_code_prefix g
                   ≠ Sellers.seller_zip_code_prefix s)
             ∧ SellersGeo.geolocation_lat sg = None
             ∧ SellersGeo.geolocation_lng sg = None)))
    (sellers data) (sellers_geo data)
  ∧ Forall2
      (λ c cg,
         CustomersGeo.customer_id cg = Customers.customer_id c
         ∧ CustomersGeo.customer_zip_code_prefix cg
           = Customers.customer_zip_code_prefix c
         ∧ CustomersGeo.customer_city cg = Customers.customer_city c
         ∧ CustomersGeo.customer_state cg = Customers.customer_state c
         ∧ ((∃ g, g ∈ geo data
                  ∧ Geolocation.geolocation_zip_code_prefix g
                    = Customers.customer_zip_code_prefix c
                  ∧ CustomersGeo.geolocation_lat cg
                    = Geolocation.geolocation_lat g
                  ∧ CustomersGeo.geolocation_lng cg
                    = Geolocation.geolocation_lng g)
            ∨ ((∀ g, g ∈ geo data →
                     Geolocation.geolocation_zip_code_prefix g
                     ≠ Customers.customer_zip_code_prefix c)
               ∧ CustomersGeo.geolocation_lat cg = None
               ∧ CustomersGeo.geolocation_lng cg = None)))
      (customers data) (customers_geo data).
Proof.
  split.
  - unfold sellers_geo. apply Forall2_fmap_r.
    eapply Forall2_impl;
      [apply merge_left_unique_right, NoDup_geo_prefixes|].
    intros s [s' [g|]] [Hs Hg]; simpl in *; subst s'.
    + do 4 (split; [done|]). left. exists g. naive_solver.
    + do 4 (split; [done|]). right. split; [|done].
      intros g Hin Hkey. by apply (Hg g).
  - unfold customers_geo. apply Forall2_fmap_r.
    eapply Forall2_impl;
      [apply merge_left_unique_right, NoDup_geo_prefixes|].
    intros c [c' [g|]] [Hc Hg]; simpl in *; subst c'.
    + do 4 (split; [done|]). left. exists g. naive_solver.
    + do 4 (split; [done|]). right. split; [|done].
      intros g Hin Hkey. by apply (Hg g).
Qed.

(** ** Where the rows of the matching table come from *)

Lemma orders_reviews_sources (data : Data) (x : OrdersReviews.row) :
  x ∈ orders_reviews_row
        <$> merge_outer Orders.order_id OrderReviews.order_id
              (orders data) (order_reviews data) →
  (OrdersReviews.customer_id x ≠ None →
   ∃ o, o ∈ orders data
        ∧ Orders.order_id o = OrdersReviews.order_id x
        ∧ Orders.customer_id o = OrdersReviews.customer_id x)
  ∧ (OrdersReviews.review_id x ≠ None →
     ∃ r, r ∈ order_reviews data
          ∧ OrderReviews.order_id r = OrdersReviews.order_id x
          ∧ OrderReviews.review_id r = OrdersReviews.review_id x)
  ∧ ((∃ o, o ∈ orders data ∧ Orders.order_id o = OrdersReviews.order_id x)
     ∨ (∃ r, r ∈ order_reviews data
             ∧ OrderReviews.order_id r = OrdersReviews.order_id x)).
Proof.
  intros (y & -> & Hy)%list_elem_of_fmap.
  apply elem_of_merge_outer in Hy. destruct y as [o r|o|r]; simpl.
  - destruct Hy as (Ho & Hr & Hkey).
    split; [intros _; by exists o|]. split; [intros _; by exists r|].
    left. by exists o.
  - destruct Hy as (Ho & _).
    split; [intros _; by exists o|]. split; [done|]. left. by exists o.
  - destruct Hy as (Hr & _).
    split; [done|]. split; [intros _; by exists r|]. right. by exists r.
Qed.

Lemma matching_table_sources (data : Data) (m : MatchingTable.row) :
  m ∈ get_matching_table data →
  (MatchingTable.customer_id m ≠ None →
   ∃ o, o ∈ orders data
        ∧ Orders.order_id o = MatchingTable.order_id m
        ∧ Orders.customer_id o = MatchingTable.customer_id m)
  ∧ (MatchingTable.review_id m ≠ None →
     ∃ r, r ∈ order_reviews data
          ∧ OrderReviews.order_id r = MatchingTable.order_id m
          ∧ OrderReviews.review_id r = MatchingTable.review_id m)
  ∧ (MatchingTable.product_id m ≠ None ∨ MatchingTable.seller_id m ≠ None →
     ∃ i, i ∈ order_items data
          ∧ OrderItems.order_id i = MatchingTable.order_id m
          ∧ OrderItems.product_id i = MatchingTable.product_id m
          ∧ OrderItems.seller_id i = MatchingTable.seller_id m)
  ∧ ((∃ o, o ∈ orders data ∧ Orders.order_id o = MatchingTable.order_id m)
     ∨ (∃ r, r ∈ order_reviews data
             ∧ OrderReviews.order_id r = MatchingTable.order_id m)
     ∨ (∃ i, i ∈ order_items data
             ∧ OrderItems.order_id i = MatchingTable.order_id m)).
Proof.
  unfold get_matching_table. intros (y & -> & Hy)%list_elem_of_fmap.
  apply elem_of_merge_outer in Hy. destruct y as [x i|x|i]; simpl.
  - destruct Hy as (Hx & Hi & Hkey).
    destruct (orders_reviews_sources data x Hx) as (Ho & Hr & _).
    split; [done|]. split; [done|].
    split; [intros _; exists i; by rewrite Hkey|].
    right. right. exists i. by rewrite Hkey.
  - destruct Hy as (Hx & _).
    destruct (orders_reviews_sources data x Hx) as (Ho & Hr & Hsource).
    split; [done|]. split; [done|]. split; [by intros [?|?]|].
    destruct Hsource as [?|?]; auto.
  - destruct Hy as (Hi & _).
    split; [done|]. split; [done|]. split; [intros _; by exists i|].
    right. right. by exists i.
Qed.

(** X15: the matching table invents nothing.  The [order_id] of a row is
    that of an order, a review or an item; a [customer_id] that is present
    comes with its [order_id] from an order, a [review_id] from a review, a
    [product_id] or [seller_id] from an item row. *)
Theorem get_matching_table_sources (data : Data) (m : MatchingTable.row) :
  m ∈ get_matching_table data →
  (MatchingTable.customer_id m ≠ None →
   ∃ o, o ∈ orders data
        ∧ Orders.order_id o = MatchingTable.order_id m
        ∧ Orders.customer_id o = MatchingTable.customer_id m)
  ∧ (MatchingTable.review_id m ≠ None →
     ∃ r, r ∈ order_reviews data
          ∧ OrderReviews.order_id r = MatchingTable.order_id m
          ∧ OrderReviews.review_id r = MatchingTable.review_id m)
  ∧ (MatchingTable.product_id m ≠ None ∨ MatchingTable.seller_id m ≠ None →
     ∃ i, i ∈ order_items data
          ∧ OrderItems.order_id i = MatchingTable.order_id m
          ∧ OrderItems.product_id i = MatchingTable.product_id m
          ∧ OrderItems.seller_id i = MatchingTable.seller_id m)
  ∧ ((∃ o, o ∈ orders data ∧ Orders.order_id o = MatchingTable.order_id m)
     ∨ (∃ r, r ∈ order_reviews data
             ∧ OrderReviews.order_id r = MatchingTable.order_id m)
     ∨ (∃ i, i ∈ order_items data
             ∧ OrderItems.order_id i = MatchingTable.order_id m)).
Proof. apply matching_table_sources. Qed.

Lemma get_matching_table_sources_witness :
  ∃ m, m ∈ get_matching_table Samples.shop
       ∧ MatchingTable.review_id m = Some "r1"%string
       ∧ ∃ r, r ∈ order_reviews Samples.shop
              ∧ OrderReviews.order_id r = MatchingTable.order_id m
              ∧ OrderReviews.review_id r = Some "r1"%string.
Proof.
  eexists. split; [vm_compute; right; left|]. split; [reflexivity|].
  eapply (get_matching_table_sources Samples.shop).
  - vm_compute. right. left.
  - discriminate.
Defined.

Lemma merge_left_from_left {A B K} `{EqDecision K}
    (left_on : A → cell K) (right_on : B → cell K) (left : list A)
    (right : list B) (ab : A * option B) :
  ab ∈ merge_left left_on right_on left right → ab.1 ∈ left.
Proof.
  unfold merge_left. intros (a & Hab & Ha)%list_elem_of_bind.
  destruct (matching left_on right_on a right) as [|b bs].
  - by apply list_elem_of_singleton in Hab as ->.
  - by apply list_elem_of_fmap in Hab as (b' & -> & _).
Qed.

Lemma matching_geo_sources (data : Data)
    (r : MatchingTable.row * SellersGeo.row * CustomersGeo.row) :
  r ∈ matching_geo data →
  ∃ k o review item seller customer,
    MatchingTable.order_id r.1.1 = Some k
    ∧ o ∈ orders data ∧ Orders.order_id o = Some k
    ∧ review ∈ order_reviews data ∧ OrderReviews.order_id review = Some k
    ∧ item ∈ order_items data ∧ OrderItems.order_id item = Some k
    ∧ seller ∈ sellers data
    ∧ Sellers.seller_id seller = OrderItems.seller_id item
    ∧ customer ∈ customers data
    ∧ Customers.customer_id customer = Orders.customer_id o.
Proof.
  unfold matching_geo. rewrite elem_of_dropna. intros [Hcomplete Hin].
  destruct r as [[m sg] cg]. unfold merged_geo in Hin.
  apply elem_of_merge in Hin as (Hin & Hcg & Hcustomer).
  apply elem_of_merge in Hin as (Hm & Hsg & Hseller). simpl in *.
  unfold complete, cells, matching_geo_cells in Hcomplete.
  repeat (apply Forall_cons in Hcomplete as [? Hcomplete]). simpl in *.
  destruct (matching_table_sources data m Hm) as (Ho & Hr & Hi & _).
  destruct (MatchingTable.order_id m) as [k|] eqn:Hk; [|done].
  destruct (MatchingTable.customer_id m) as [c|] eqn:Hc; [|done].
  destruct (MatchingTable.review_id m) as [rv|] eqn:Hrv; [|done].
  destruct (MatchingTable.seller_id m) as [s|] eqn:Hs; [|done].
  destruct Ho as (o & Ho & Hoid & Hoc); [done|].
  destruct Hr as (review & Hreview & Hrid & _); [done|].
  destruct Hi as (item & Hitem & Hiid & _ & His); [by right|].
  unfold sellers_geo in Hsg.
  apply list_elem_of_fmap in Hsg as ([seller g] & -> & Hsg).
  apply merge_left_from_left in Hsg.
  unfold customers_geo in Hcg.
  apply list_elem_of_fmap in Hcg as ([customer g'] & -> & Hcg).
  apply merge_left_from_left in Hcg. simpl in *.
  exists k, o, review, item, seller, customer.
  repeat split; try done; congruence.
Qed.

(** X16: an order gets a distance only if the tables hold it with a review
    and an item: every [order_id] of the result is that of an order, of a
    review and of an item row, whose seller is in the sellers table and
    whose order's customer is in the customers table. *)
Theorem distance_only_for_reviewed_orders
    (haversine_distance : Q → Q → Q → Q → Q) (data : Data)
    (d : Distance.row) :
  d ∈ get_distance_seller_customer haversine_distance data →
  ∃ k o review item seller customer,
    Distance.order_id d = Some k
    ∧ o ∈ orders data ∧ Orders.order_id o = Some k
    ∧ review ∈ order_reviews data ∧ OrderReviews.order_id review = Some k
    ∧ item ∈ order_items data ∧ OrderItems.order_id item = Some k
    ∧ seller ∈ sellers data
    ∧ Sellers.seller_id seller = OrderItems.seller_id item
    ∧ customer ∈ customers data
    ∧ Customers.customer_id customer = Orders.customer_id o.
Proof.
  intros (k & rows & Hrows & ->)%elem_of_get_distance_seller_customer.
  apply elem_of_groupby in Hrows as [(r & Hr & Hk) _].
  destruct (matching_geo_sources data r Hr)
    as (k' & o & review & item & seller & customer & Hk' & Hrest).
  rewrite Hk in Hk'. injection Hk' as <-.
  by exists k, o, review, item, seller, customer.
Qed.

Lemma distance_only_for_reviewed_orders_witness :
  ∃ d, d ∈ get_distance_seller_customer Samples.taxicab Samples.shop
       ∧ ∃ review,
           review ∈ order_reviews Samples.shop
           ∧ OrderReviews.order_id review = Distance.order_id d.
Proof.
  eexists. split; [vm_compute; left|].
  edestruct (distance_only_for_reviewed_orders Samples.taxicab Samples.shop)
    as (k & o & review & item & seller & customer & Hk & _ & _ & Hr & Hrk & _).
  { vm_compute. left. }
  exists review. split; [done|]. by rewrite Hrk, Hk.
Defined.

Lemma total_nonneg (xs : list Q) :
  Forall (λ x, (0 <= x)%Q) xs → (0 <= total xs)%Q.
Proof.
  unfold total. induction 1 as [|x xs Hx _ IH]; simpl.
  - apply Qle_refl.
  - pose proof (Qplus_le_compat 0 x 0 (foldr Qplus 0 xs) Hx IH)%Q as Hsum.
    by rewrite Qplus_0_l in Hsum.
Qed.

Lemma values_nonneg {A} (column : A → cell Q) (l : list A) (qs : list Q) :
  Forall2 (λ x q, column x = Some q) l qs →
  (∀ x, x ∈ l → ∃ q, column x = Some q ∧ (0 <= q)%Q) →
  Forall (λ q, (0 <= q)%Q) qs.
Proof.
  induction 1 as [|x q l qs Hq _ IH]; intros Hall; constructor.
  - destruct (Hall x) as (q' & Hq' & ?); [left|]. congruence.
  - apply IH. intros y Hy. apply Hall. by right.
Qed.

(** X17: every row of the result holds a distance, never a missing value;
    and when the distance function gives no negative value, none of the
    means is negative. *)
Theorem distance_present_and_nonneg
    (haversine_distance : Q → Q → Q → Q → Q) (data : Data)
    (d : Distance.row) :
  (∀ lng1 lat1 lng2 lat2, (0 <= haversine_distance lng1 lat1 lng2 lat2)%Q) →
  d ∈ get_distance_seller_customer haversine_distance data →
  ∃ k q, Distance.order_id d = Some k
         ∧ Distance.distance_seller_customer d = Some q
         ∧ (0 <= q)%Q.
Proof.
  intros Hnonneg
    (k & rows & Hrows & ->)%elem_of_get_distance_seller_customer.
  apply elem_of_groupby in Hrows as [(r0 & Hr0 & Hk0) ->].
  set (rows := filter (λ r, MatchingTable.order_id r.1.1 = Some k)
                 (matching_geo data)).
  assert (r0 ∈ rows) as Hin by by apply list_elem_of_filter.
  destruct rows as [|r rest] eqn:Hrows; [by apply not_elem_of_nil in Hin|].
  assert (∀ x, x ∈ r :: rest →
            ∃ q, distance_seller_customer haversine_distance x = Some q
                 ∧ (0 <= q)%Q) as Hdist.
  { intros x Hx. rewrite <- Hrows in Hx.
    apply list_elem_of_filter in Hx as [_ Hx].
    destruct (matching_geo_coordinates haversine_distance data x Hx)
      as (_ & _ & ? & ? & ? & ? & _ & _ & _ & _ & ->).
    eexists. split; [done|]. apply Hnonneg. }
  destruct (mean_present (distance_seller_customer haversine_distance) r rest)
    as (distances & Hall & Hmean).
  { intros x Hx. destruct (Hdist x Hx) as (q & -> & _). done. }
  exists k. eexists. split; [done|]. simpl. split; [exact Hmean|].
  apply Qle_shift_div_l; [reflexivity|]. rewrite Qmult_0_l.
  apply total_nonneg. by apply (values_nonneg _ _ _ Hall).
Qed.

Lemma taxicab_nonneg (lng1 lat1 lng2 lat2 : Q) :
  (0 <= Samples.taxicab lng1 lat1 lng2 lat2)%Q.
Proof.
  unfold Samples.taxicab.
  pose proof (Qplus_le_compat 0 (Qabs (lng1 - lng2)) 0 (Qabs (lat1 - lat2))
                (Qabs_nonneg _) (Qabs_nonneg _)) as Hsum.
  by rewrite Qplus_0_l in Hsum.
Qed.

Lemma distance_present_and_nonneg_witness :
  (∀ lng1 lat1 lng2 lat2, (0 <= Samples.taxicab lng1 lat1 lng2 lat2)%Q)
  ∧ ∃ d, d ∈ get_distance_seller_customer Samples.taxicab Samples.shop
         ∧ ∃ k q, Distance.order_id d = Some k
                  ∧ Distance.distance_seller_customer d = Some q
                  ∧ (0 <= q)%Q.
Proof.
  split; [apply taxicab_nonneg|].
  eexists. split; [vm_compute; left|].
  apply (distance_present_and_nonneg Samples.taxicab Samples.shop).
  - apply taxicab_nonneg.
  - vm_compute. left.
Defined.

(** ** More on the training table *)

Lemma training_row_columns (w : WaitTime.row) (r : ReviewScore.row)
    (p : NumberProducts.row) (s : NumberSellers.row) (f : PriceFreight.row) :
  (cells (w, r, p, s, f)).*1
  = ["order_id"; "wait_time"; "expected_wait_time"; "delay_vs_expected";
     "dim_is_five_star"; "dim_is_one_star"; "review_score";
     "number_of_products"; "number_of_sellers"; "price";
     "freight_value"]%string
  ∧ ∀ d : Distance.row,
      cells (w, r, p, s, f, d)
      = cells (w, r, p, s, f)
        ++ [("distance_seller_customer"%string,
             num (Distance.distance_seller_customer d))].
Proof. split; [|intros d]; reflexivity. Qed.

(** X18: every row of the training table has the same columns, in this
    order: the four of [get_wait_time], the three of [get_review_score]
    beside the key, the two counts, the two totals, and the distance when
    asked for.  There is no [order_status] column. *)
Theorem get_training_data_columns
    (haversine_distance : Q → Q → Q → Q → Q)
    (is_delivered with_distance : bool) (data : Data) (row : record) :
  row ∈ get_training_data haversine_distance is_delivered with_distance data →
  row.*1
  = ["order_id"; "wait_time"; "expected_wait_time"; "delay_vs_expected";
     "dim_is_five_star"; "dim_is_one_star"; "review_score";
     "number_of_products"; "number_of_sellers"; "price";
     "freight_value"]%string
    ++ (if with_distance then ["distance_seller_customer"%string] else [])
  ∧ lookup_column "order_status" row = None.
Proof.
  intros (w & r & p & s & f & _ & Hshape & _)%elem_of_get_training_data.
  destruct (training_row_columns w r p s f) as [Hcolumns Hdistance].
  destruct with_distance.
  - destruct Hshape as (d & _ & _ & ->). rewrite Hdistance.
    split; [by rewrite fmap_app, Hcolumns|reflexivity].
  - subst row. split; [by rewrite Hcolumns, app_nil_r|reflexivity].
Qed.

Lemma get_training_data_columns_witness :
  ∃ row,
    row ∈ get_training_data Samples.taxicab true true Samples.shop
    ∧ length row = 12%nat
    ∧ lookup_column "order_status" row = None.
Proof.
  eexists. split; [vm_compute; left|].
  destruct (get_training_data_columns Samples.taxicab true true Samples.shop
              _ ltac:(vm_compute; left)) as [Hcolumns Hstatus].
  split; [|exact Hstatus].
  apply (f_equal length) in Hcolumns. by rewrite length_fmap in Hcolumns.
Defined.

Lemma complete_app_l (row extra : record) :
  (∀ name v, (name, v) ∈ row ++ extra → v ≠ NaN) →
  ∀ name v, (name, v) ∈ row → v ≠ NaN.
Proof. intros Hall name v Hin. apply (Hall name). set_solver. Qed.

(** X19: asking for the distance adds one column and drops rows: a row of
    the table with distances is a row of the table without them followed
    by a [distance_seller_customer] that is present. *)
Theorem get_training_data_with_distance
    (haversine_distance : Q → Q → Q → Q → Q) (is_delivered : bool)
    (data : Data) (row : record) :
  row ∈ get_training_data haversine_distance is_delivered true data →
  ∃ row' q,
    row' ∈ get_training_data haversine_distance is_delivered false data
    ∧ row = row' ++ [("distance_seller_customer"%string, Num q)].
Proof.
  intros (w & r & p & s & f & Hin & (d & Hd & Hkey & ->) & Hcomplete)
    %elem_of_get_training_data.
  destruct (training_row_columns w r p s f) as [_ Hdistance].
  rewrite Hdistance in *.
  destruct (Distance.distance_seller_customer d) as [q|] eqn:Hq.
  - exists (cells (w, r, p, s, f)), q. split; [|done].
    apply elem_of_get_training_data. exists w, r, p, s, f.
    split; [done|]. split; [done|]. by eapply complete_app_l.
  - destruct (Hcomplete "distance_seller_customer"%string NaN); [|done].
    set_solver.
Qed.

Lemma get_training_data_with_distance_witness :
  ∃ row row' q,
    row ∈ get_training_data Samples.taxicab true true Samples.shop
    ∧ row' ∈ get_training_data Samples.taxicab true false Samples.shop
    ∧ row = row' ++ [("distance_seller_customer"%string, Num q)].
Proof.
  destruct (get_training_data_with_distance Samples.taxicab true Samples.shop
              _ ltac:(vm_compute; left)) as (row' & q & Hin & Hrow).
  eexists _, row', q. split; [vm_compute; left|]. by split.
Defined.

Lemma get_wait_time_delivered_elem_of (data : Data) (w : WaitTime.row) :
  w ∈ get_wait_time true data → w ∈ get_wait_time false data.
Proof.
  unfold get_wait_time, query_delivered. rewrite !list_elem_of_fmap.
  intros (o & -> & [_ Ho]%list_elem_of_filter). by exists o.
Qed.

(** X20: leaving out the undelivered orders only drops rows: every row of
    the training table built with [is_delivered] is a row of the table
    built without it. *)
Theorem get_training_data_delivered_subset
    (haversine_distance : Q → Q → Q → Q → Q) (with_distance : bool)
    (data : Data) (row : record) :
  row ∈ get_training_data haversine_distance true with_distance data →
  row ∈ get_training_data haversine_distance false with_distance data.
Proof.
  rewrite !elem_of_get_training_data.
  intros (w & r & p & s & f & Hin & Hrest). exists w, r, p, s, f.
  split; [|done].
  apply elem_of_training_set in Hin as (Hw & Hin).
  apply elem_of_training_set. split; [|done].
  by apply get_wait_time_delivered_elem_of.
Qed.

Lemma get_training_data_delivered_subset_witness :
  ∃ row,
    row ∈ get_training_data Samples.taxicab true true Samples.shop
    ∧ row ∈ get_training_data Samples.taxicab false true Samples.shop.
Proof.
  eexists. split; [vm_compute; left|].
  apply (get_training_data_delivered_subset Samples.taxicab true Samples.shop).
  vm_compute. left.
Defined.

(** The columns a row of the training table takes from [get_wait_time]. *)
Lemma training_row_wait_columns (w : WaitTime.row) (r : ReviewScore.row)
    (p : NumberProducts.row) (s : NumberSellers.row) (f : PriceFreight.row)
    (row : record) :
  (row = cells (w, r, p, s, f)
   ∨ ∃ d : Distance.row, row = cells (w, r, p, s, f, d)) →
  lookup_column "order_id" row = Some (str (WaitTime.order_id w))
  ∧ lookup_column "wait_time" row = Some (num (WaitTime.wait_time w))
  ∧ lookup_column "expected_wait_time" row
    = Some (num (WaitTime.expected_wait_time w))
  ∧ lookup_column "delay_vs_expected" row
    = Some (num (WaitTime.delay_vs_expected w)).
Proof. intros [->|[d ->]]; repeat split. Qed.

Lemma elem_of_get_wait_time_row (is_delivered : bool) (data : Data)
    (w : WaitTime.row) :
  w ∈ get_wait_time is_delivered data →
  ∃ o, o ∈ query_delivered is_delivered (orders data)
       ∧ w = WaitTime.Row (Orders.order_id o)
               (per (minus (Orders.order_delivered_customer_date o)
                       (Orders.order_purchase_timestamp o)) one_day_delta)
               (per (minus (Orders.order_estimated_delivery_date o)
                       (Orders.order_purchase_timestamp o)) one_day_delta)
               (absolute_delay
                  (per (minus (Orders.order_estimated_delivery_date o)
                          (Orders.order_delivered_customer_date o))
                     one_day_delta)).
Proof.
  intros (i & Hi)%list_elem_of_lookup.
  destruct (get_wait_time_lookup_row _ _ _ _ Hi) as (o & Ho & ->).
  exists o. split; [by eapply list_elem_of_lookup_2|done].
Qed.

(** X21: a row of the training table stands for an order of the table that
    has its [order_id] and its three dates, also when [is_delivered] is
    off, and whose status is "delivered" when it is on; and its
    [delay_vs_expected] is present and not negative. *)
Theorem training_rows_have_dates
    (haversine_distance : Q → Q → Q → Q → Q)
    (is_delivered with_distance : bool) (data : Data) (row : record) :
  row ∈ get_training_data haversine_distance is_delivered with_distance data →
  ∃ o k purchase delivered estimated delay,
    o ∈ orders data
    ∧ Orders.order_id o = Some k
    ∧ lookup_column "order_id" row = Some (Str k)
    ∧ Orders.order_purchase_timestamp o = Some purchase
    ∧ Orders.order_delivered_customer_date o = Some delivered
    ∧ Orders.order_estimated_delivery_date o = Some estimated
    ∧ (is_delivered = true →
       Orders.order_status o = Some "delivered"%string)
    ∧ lookup_column "delay_vs_expected" row = Some (Num delay)
    ∧ (0 <= delay)%Q.
Proof.
  intros (w & r & p & s & f & Hin & Hshape & Hcomplete)
    %elem_of_get_training_data.
  apply elem_of_training_set in Hin as (Hw & _).
  destruct (training_row_wait_columns w r p s f row)
    as (Hid & Hwait & Hexpected & Hdelay).
  { destruct with_distance; [|by left].
    destruct Hshape as (d & _ & _ & ->). right. by exists d. }
  pose proof (Hcomplete _ _ (lookup_column_elem_of _ _ _ Hid)) as Hid'.
  pose proof (Hcomplete _ _ (lookup_column_elem_of _ _ _ Hwait)) as Hwait'.
  pose proof (Hcomplete _ _ (lookup_column_elem_of _ _ _ Hexpected))
    as Hexpected'.
  apply elem_of_get_wait_time_row in Hw as (o & Ho & ->). simpl in *.
  destruct (Orders.order_id o) as [k|] eqn:Hk; [|done].
  destruct (Orders.order_purchase_timestamp o) as [purchase|] eqn:Hp;
    [|by destruct (Orders.order_delivered_customer_date o)].
  destruct (Orders.order_delivered_customer_date o) as [delivered|] eqn:Hd;
    [|done].
  destruct (Orders.order_estimated_delivery_date o) as [estimated|] eqn:He;
    [|done].
  destruct (absolute_delay_nonneg
              (per (minus (Some estimated) (Some delivered)) one_day_delta))
    as (delay & Hq & Hnonneg).
  exists o, k, purchase, delivered, estimated, delay.
  rewrite Hdelay, Hq.
  assert (o ∈ orders data
          ∧ (is_delivered = true →
             Orders.order_status o = Some "delivered"%string)) as [? ?].
  { unfold query_delivered in Ho. destruct is_delivered.
    - by apply list_elem_of_filter in Ho as [? ?].
    - done. }
  done.
Qed.

Lemma training_rows_have_dates_witness :
  ∃ row o,
    row ∈ get_training_data Samples.taxicab false true Samples.shop
    ∧ o ∈ orders Samples.shop
    ∧ lookup_column "order_id" row = Some (Str "A")
    ∧ Orders.order_id o = Some "A"%string
    ∧ Orders.order_delivered_customer_date o = Some (3 * Samples.day).
Proof.
  destruct (training_rows_have_dates Samples.taxicab false true Samples.shop
              _ ltac:(vm_compute; left))
    as (o & k & purchase & delivered & estimated & delay & Ho & Hk & Hid
        & _ & Hd & _).
  eexists _, o. split; [vm_compute; left|]. split; [done|].
  split; [reflexivity|].
  injection Hid as <-. split; [done|].
  simpl in Ho. apply elem_of_cons in Ho as [->|Ho]; [discriminate|].
  by apply list_elem_of_singleton in Ho as ->.
Defined.

(** Merging with a frame that has one row per key adds no row. *)
Lemma length_merge_unique_right {A B K} `{EqDecision K}
    (left_on : A → cell K) (right_on : B → cell K) (left : list A)
    (right : list B) :
  NoDup (right_on <$> right) →
  (length (merge left_on right_on left right) ≤ length left)%nat.
Proof.
  intros Hkeys. unfold merge.
  induction left as [|a left IH]; [done|]. rewrite bind_cons, length_app.
  rewrite length_fmap. simpl.
  destruct (matching_unique left_on right_on a right Hkeys)
    as [->|[b ->]]; simpl; lia.
Qed.

Lemma length_training_set (is_delivered : bool) (data : Data) :
  (length (training_set is_delivered data)
   ≤ length (merge WaitTime.order_id ReviewScore.order_id
               (get_wait_time is_delivered data) (get_review_score data)))%nat.
Proof.
  destruct (aggregated_frames_keys_NoDup data) as (Hp & Hs & Hf).
  unfold training_set.
  etrans; [by apply length_merge_unique_right|].
  etrans; [by apply length_merge_unique_right|].
  by apply length_merge_unique_right.
Qed.

Lemma length_get_training_data
    (haversine_distance : Q → Q → Q → Q → Q)
    (is_delivered with_distance : bool) (data : Data) :
  (length (get_training_data haversine_distance is_delivered with_distance
             data)
   ≤ length (training_set is_delivered data))%nat.
Proof.
  unfold get_training_data, dropna.
  etrans; [apply length_filter|].
  destruct with_distance; rewrite length_fmap; [|done].
  apply length_merge_unique_right, NoDup_distance_order_ids.
Qed.

(** X22: the three aggregated frames and the distances add no row to the
    join: the training table has at most one row per pair of an order row
    and a review of that order, and, when no two reviews share an
    [order_id], at most one row per order row selected. *)
Theorem get_training_data_row_count
    (haversine_distance : Q → Q → Q → Q → Q)
    (is_delivered with_distance : bool) (data : Data) :
  (length (get_training_data haversine_distance is_delivered with_distance
             data)
   ≤ length (merge WaitTime.order_id ReviewScore.order_id
               (get_wait_time is_delivered data) (get_review_score data)))%nat
  ∧ (NoDup (OrderReviews.order_id <$> order_reviews data) →
     (length (get_training_data haversine_distance is_delivered with_distance
                data)
      ≤ length (query_delivered is_delivered (orders data)))%nat).
Proof.
  assert (length (get_training_data haversine_distance is_delivered
                    with_distance data)
          ≤ length (merge WaitTime.order_id ReviewScore.order_id
                      (get_wait_time is_delivered data)
                      (get_review_score data)))%nat as Hpairs.
  { etrans; [apply length_get_training_data|apply length_training_set]. }
  split; [done|]. intros Hreviews.
  etrans; [exact Hpairs|].
  etrans; [apply length_merge_unique_right|].
  - unfold get_review_score. by rewrite <- list_fmap_compose.
  - unfold get_wait_time. by rewrite length_fmap.
Qed.

Lemma get_training_data_row_count_witness :
  NoDup (OrderReviews.order_id <$> order_reviews Samples.shop)
  ∧ (length (get_training_data Samples.taxicab false true Samples.shop)
     ≤ 2)%nat.
Proof.
  assert (NoDup (OrderReviews.order_id <$> order_reviews Samples.shop))
    as Hreviews by (simpl; repeat constructor; set_solver).
  split; [exact Hreviews|].
  by apply (get_training_data_row_count Samples.taxicab false true
              Samples.shop).
Defined.
